(** * LoRaWAN payload codecs of the device catalog

    A shallow embedding of the three JavaScript drivers of the repository:

    - [Part000]      : src/unnamed/part_000 (switch on [raw[0]]);
    - [Part001]      : src/unnamed/part_001 (switch on [rawHEX[0]]);
    - [SampleDriver] : src/template/Electrex-vendor/drivers/sample-driver/index.js
                       (tag stream; uplink decode, downlink encode and decode).

    JavaScript is modelled as follows.  A [Buffer] is a [list Z] of values in
    [0, 256); an element read [raw[i]] is a list lookup, [None] standing for
    [undefined].  Numbers are integers ([Z]); [NaN] is kept apart.  A function
    either returns or throws, hence the [outcome] monad.  The JS object
    [result.data] is a finite map from field names to values. *)

From Stdlib Require Import ZArith String Ascii DecimalString HexadecimalString.
From stdpp Require Import base option list gmap strings.

Open Scope string_scope.
Open Scope Z_scope.

(** ** Exceptions and outcomes *)

Inductive exn : Type :=
| TypeError
| ReferenceError
| RangeError.

(** [NoFuel] is only produced by the cursor loops, which are written with a
    fuel argument; the callers pass enough fuel (see the totality lemmas). *)
Inductive outcome (A : Type) : Type :=
| Returned (a : A)
| Threw (e : exn)
| NoFuel.

Arguments Returned {A} a.
Arguments Threw {A} e.
Arguments NoFuel {A}.

#[global] Instance outcome_ret : MRet outcome := fun _ a => Returned a.
#[global] Instance outcome_bind : MBind outcome := fun _ _ f m =>
  match m with
  | Returned a => f a
  | Threw e => Threw e
  | NoFuel => NoFuel
  end.

(** ** Numbers, strings and buffers *)

Module JS.

(** [Number.prototype.toString()] on an integer: decimal digits, with a
    leading minus sign below zero (JavaScript switches to the exponent
    notation from 10^21 on; the bytes and character codes rendered here are
    far below). *)
Definition toString10 (z : Z) : string :=
  DecimalString.NilZero.string_of_int (Z.to_int z).

(** [Number.prototype.toString(16)] on an integer: lowercase hexadecimal
    digits without padding. *)
Definition toString16 (z : Z) : string :=
  HexadecimalString.NilZero.string_of_int (Z.to_hex_int z).

(** [x.toString(16)] where [x] is a buffer element: calling a method on
    [undefined] throws a [TypeError]. *)
Definition elem_toString16 (x : option Z) : outcome string :=
  match x with
  | Some z => Returned (toString16 z)
  | None => Threw TypeError
  end.

(** A buffer element inside a template literal or a string concatenation. *)
Definition elem_str (x : option Z) : string :=
  match x with
  | Some z => toString10 z
  | None => "undefined"
  end.

(** [Buffer.from(array)] on an array of integers: every entry is reduced
    to an unsigned byte. *)
Definition Buffer_from (bytes : list Z) : list Z :=
  (fun b => b mod 256) <$> bytes.

(** [array.toString(16)]: [Array.prototype.toString] ignores its argument
    and joins the decimal renderings of the entries with commas. *)
Definition Array_toString (bytes : list Z) : string :=
  String.concat "," (toString10 <$> bytes).

(** [Buffer.from(string)]: the UTF-8 bytes of the string; on the ASCII
    strings that [Array_toString] yields these are the character codes. *)
Definition Buffer_from_string (s : string) : list Z :=
  (fun c => Z.of_N (N_of_ascii c)) <$> list_ascii_of_string s.

(** Arithmetic on numbers, [None] being [NaN].  An [undefined] operand of
    [*] is converted to [NaN], so a buffer element is used as it is. *)
Definition mul (a b : option Z) : option Z :=
  match a, b with
  | Some x, Some y => Some (x * y)
  | _, _ => None
  end.

Definition add (a b : option Z) : option Z :=
  match a, b with
  | Some x, Some y => Some (x + y)
  | _, _ => None
  end.

(** The case test of a [switch] on a buffer element: strict equality with
    a number. *)
Definition is_case (x : option Z) (v : Z) : bool :=
  match x with
  | Some z => z =? v
  | None => false
  end.

(** [for (j = lo; j < hi; j++) body], given as the list of the values that
    [j] takes; the body does not change [j]. *)
Fixpoint for_each {S : Type} (body : nat -> S -> outcome S)
    (js : list nat) (s : S) : outcome S :=
  match js with
  | [] => Returned s
  | j :: js' => s' ← body j s; for_each body js' s'
  end.

Definition range (lo hi : nat) : list nat := seq lo (hi - lo).

(** Node's [buf.readUInt8], [buf.readInt8] and [buf.readInt16BE]: a read
    outside the buffer throws a [RangeError]. *)
Definition readUInt8 (raw : list Z) (offset : nat) : outcome Z :=
  match raw !! offset with
  | Some v => Returned v
  | None => Threw RangeError
  end.

Definition readInt8 (raw : list Z) (offset : nat) : outcome Z :=
  match raw !! offset with
  | Some v => Returned (if v <? 128 then v else v - 256)
  | None => Threw RangeError
  end.

Definition readInt16BE (raw : list Z) (offset : nat) : outcome Z :=
  match raw !! offset, raw !! (offset + 1)%nat with
  | Some first, Some last =>
      let val := first * 2 ^ 8 + last in
      Returned (if val <? 32768 then val else val - 65536)
  | _, _ => Threw RangeError
  end.

(** Node's [buf.writeUInt8(value, offset)] on an integer value: a value
    outside [0, 255] and an offset outside the buffer throw a
    [RangeError]. *)
Definition writeUInt8 (raw : list Z) (value : Z) (offset : nat)
    : outcome (list Z) :=
  if (value >? 255) || (value <? 0) then Threw RangeError
  else match raw !! offset with
       | Some _ => Returned (<[offset := value]> raw)
       | None => Threw RangeError
       end.

End JS.

(** ** Values and result objects *)

(** The values stored in the fields of a decoded uplink. [VCenti z] is the
    number [z / 100]. *)
Inductive value : Type :=
| VUndefined
| VNaN
| VNum (z : Z)
| VCenti (z : Z)
| VStr (s : string).

(** The values of the downlink fields: integers and booleans. *)
Inductive dvalue : Type :=
| DNum (z : Z)
| DBool (b : bool).

Definition of_elem (x : option Z) : value :=
  match x with
  | Some z => VNum z
  | None => VUndefined
  end.

Definition of_number (x : option Z) : value :=
  match x with
  | Some z => VNum z
  | None => VNaN
  end.

(** The decimal rendering of the number [z / 100]: sign, integer part and
    at most two fraction digits, without trailing zeros. *)
Definition centi_str (z : Z) : string :=
  let a := Z.abs z in
  let frac := a mod 100 in
  (if z <? 0 then "-" else "") +:+ JS.toString10 (a / 100) +:+
  (if frac =? 0 then ""
   else if frac mod 10 =? 0 then "." +:+ JS.toString10 (frac / 10)
   else "." +:+ JS.toString10 (frac / 10) +:+ JS.toString10 (frac mod 10)).

(** A value inside a template literal; [None] is an absent property. *)
Definition value_str (x : option value) : string :=
  match x with
  | None | Some VUndefined => "undefined"
  | Some VNaN => "NaN"
  | Some (VNum z) => JS.toString10 z
  | Some (VCenti z) => centi_str z
  | Some (VStr s) => s
  end.

(** [{data, errors, warnings}]; [data = None] after [delete result.data]. *)
Record Decoded (V : Type) : Type := mkDecoded {
  data : option (gmap string V);
  errors : list string;
  warnings : list string
}.

Arguments mkDecoded {V} _ _ _.
Arguments data {V} _.
Arguments errors {V} _.
Arguments warnings {V} _.

Definition DecodedUplink : Type := Decoded value.
Definition DecodedDownlink : Type := Decoded dvalue.

(** [let result = {data: {}, errors: [], warnings: []}] *)
Definition fresh {V : Type} : Decoded V := mkDecoded (Some ∅) [] [].

(** [result.data.k = v]; the drivers return right after
    [delete result.data], so no field is ever assigned on a deleted object. *)
Definition set {V : Type} (k : string) (v : V) (r : Decoded V) : Decoded V :=
  mkDecoded (insert k v <$> data r) (errors r) (warnings r).

(** [result.data.k] *)
Definition get {V : Type} (k : string) (r : Decoded V) : option V :=
  data r ≫= fun d => d !! k.

(** [result.errors.push(msg)] *)
Definition push_error {V : Type} (msg : string) (r : Decoded V) : Decoded V :=
  mkDecoded (data r) (errors r ++ [msg]) (warnings r).

(** [delete result.data] *)
Definition delete_data {V : Type} (r : Decoded V) : Decoded V :=
  mkDecoded None (errors r) (warnings r).

(** [raw[i]*256**3 + raw[i + 1]*256**2 + raw[i + 2]*256 + raw[i + 3]] *)
Definition be32 (raw : list Z) (i : nat) : value :=
  of_number
    (JS.add (JS.add (JS.add (JS.mul (raw !! i) (Some (256 ^ 3)))
                            (JS.mul (raw !! (i + 1)%nat) (Some (256 ^ 2))))
                    (JS.mul (raw !! (i + 2)%nat) (Some 256)))
            (raw !! (i + 3)%nat)).

(** [raw[i]*256 + raw[i+1]] *)
Definition be16 (raw : list Z) (i : nat) : value :=
  of_number (JS.add (JS.mul (raw !! i) (Some 256)) (raw !! (i + 1)%nat)).

(** ** src/unnamed/part_000 *)

Module Part000.

(** [case 0x11] of the switch on [raw[0]]. *)
Definition status_frame (raw : list Z) (result : DecodedUplink)
    : outcome DecodedUplink :=
  let result := set "frame_type" (VStr "Status frame") result in
  if (length raw <? 13)%nat then
    let result :=
      push_error
        "Invalid uplink payload: index out of bounds when reading status frame"
        result in
    let result := delete_data result in
    Returned result
  else
    let i := 1%nat in
    h0 ← JS.elem_toString16 (raw !! i);
    h1 ← JS.elem_toString16 (raw !! (i + 1)%nat);
    h2 ← JS.elem_toString16 (raw !! (i + 2)%nat);
    h3 ← JS.elem_toString16 (raw !! (i + 3)%nat);
    let result :=
      set "device_id" (VStr ("00" +:+ h0 +:+ h1 +:+ h2 +:+ h3)) result in
    let i := (i + 4)%nat in
    let result := set "port" (of_elem (raw !! i)) result in
    let i := (i + 1)%nat in
    let result := set "device_date_time" (be32 raw i) result in
    let i := (i + 4)%nat in
    f0 ← JS.elem_toString16 (raw !! i);
    f1 ← JS.elem_toString16 (raw !! (i + 1)%nat);
    f2 ← JS.elem_toString16 (raw !! (i + 2)%nat);
    let result :=
      set "firmware" (VStr (f0 +:+ "." +:+ f1 +:+ "." +:+ f2)) result in
    let i := (i + 3)%nat in
    name ← JS.elem_toString16 (raw !! i);
    name ← JS.for_each
              (fun j name =>
                 h ← JS.elem_toString16 (raw !! j); Returned (name +:+ h))
              (JS.range (i + 1) (length raw)) name;
    let result := set "name" (VStr name) result in
    Returned result.

(** [case 0x01] of the switch on [raw[0]]; the inner switch is on
    [raw[7]]. *)
Definition data_frame (raw : list Z) (result : DecodedUplink)
    : outcome DecodedUplink :=
  let result := set "frame_type" (VStr "Data frame") result in
  if (length raw <? 14)%nat then
    let result :=
      push_error
        "Invalid uplink payload: index out of bounds when reading data frame"
        result in
    let result := delete_data result in
    Returned result
  else
    let i := 1%nat in
    let result :=
      set "tcp_ip"
        (VStr (JS.elem_str (raw !! i) +:+ "." +:+
               JS.elem_str (raw !! (i + 1)%nat) +:+ "." +:+
               JS.elem_str (raw !! (i + 2)%nat) +:+ "." +:+
               JS.elem_str (raw !! (i + 3)%nat))) result in
    let i := (i + 4)%nat in
    let result := set "tcp_port" (be16 raw i) result in
    let i := (i + 2)%nat in
    let result := set "slave_id" (of_elem (raw !! i)) result in
    let i := (i + 1)%nat in
    let result := set "modbus" (of_elem (raw !! i)) result in
    let i := (i + 1)%nat in
    let result := set "start_value" (be16 raw i) result in
    let i := (i + 2)%nat in
    let result := set "registers_quiered" (be16 raw i) result in
    let i := (i + 2)%nat in
    let result := set "data_bytes" (of_elem (raw !! i)) result in
    let i := (i + 1)%nat in
    if JS.is_case (raw !! 7%nat) 0x0a then
      let result := set "c1" (be32 raw i) result in
      let result := set "frame_type" (VStr "Data frame - GAS METER") result in
      Returned result
    else if JS.is_case (raw !! 7%nat) 0x0b then
      let result := set "c1" (be32 raw i) result in
      let i := (i + 4)%nat in
      let result := set "c2" (be32 raw i) result in
      let result :=
        set "frame_type" (VStr "Data frame - WATER METER") result in
      Returned result
    else if JS.is_case (raw !! 7%nat) 0x0c then
      let result := set "ea" (be32 raw i) result in
      let i := (i + 4)%nat in
      let result := set "er" (be32 raw i) result in
      let result :=
        set "frame_type" (VStr "Data frame - ENERGY METER") result in
      Returned result
    else if JS.is_case (raw !! 7%nat) 0xf7 then
      let result := set "ea_imp" (be32 raw i) result in
      let i := (i + 4)%nat in
      let result := set "er_ind_imp" (be32 raw i) result in
      let i := (i + 4)%nat in
      let result := set "er_cap_imp" (be32 raw i) result in
      let i := (i + 4)%nat in
      let result := set "es_imp" (be32 raw i) result in
      let result :=
        set "frame_type" (VStr "Data frame - IMPORTED ENERGY") result in
      Returned result
    else
      let result :=
        push_error "Invalid uplink payload: unknown data frame type" result in
      let result := delete_data result in
      Returned result.

Definition decodeUplink (bytes : list Z) : outcome DecodedUplink :=
  let result : DecodedUplink := fresh in
  let raw := JS.Buffer_from bytes in
  if (30 <? length raw)%nat then
    let result :=
      push_error "Invalid uplink payload: length exceeds 30 bytes" result in
    let result := delete_data result in
    Returned result
  else if JS.is_case (raw !! 0%nat) 0x11 then status_frame raw result
  else if JS.is_case (raw !! 0%nat) 0x01 then data_frame raw result
  else
    (* the default case pushes the error and keeps [result.data] *)
    let result :=
      push_error "Invalid uplink payload: unknown frame type" result in
    Returned result.

End Part000.

(** ** src/unnamed/part_001 *)

Module Part001.

(** [case 0x11] of the switch on [rawHEX[0]]. *)
Definition status_frame (raw rawHEX : list Z) (result : DecodedUplink)
    : outcome DecodedUplink :=
  let result := set "frame_type" (VStr "Status frame") result in
  if (length rawHEX <? 28)%nat then
    let result :=
      push_error
        "Invalid uplink payload: index out of bounds when reading Device ID"
        result in
    let result := delete_data result in
    Returned result
  else
    let i := 1%nat in
    let result :=
      set "device_id"
        (VStr (JS.elem_str (rawHEX !! i) +:+
               JS.elem_str (rawHEX !! (i + 1)%nat) +:+
               JS.elem_str (rawHEX !! (i + 2)%nat) +:+
               JS.elem_str (rawHEX !! (i + 3)%nat))) result in
    let i := (i + 4)%nat in
    let result := set "port" (VStr (JS.elem_str (rawHEX !! i))) result in
    let i := (i + 1)%nat in
    let result := set "device_date_time" (be32 raw i) result in
    let i := (i + 4)%nat in
    let result :=
      set "firmware"
        (VStr (JS.elem_str (rawHEX !! i) +:+
               JS.elem_str (rawHEX !! (i + 1)%nat) +:+
               JS.elem_str (rawHEX !! (i + 2)%nat))) result in
    let i := (i + 3)%nat in
    JS.for_each
      (fun j result =>
         Returned
           (set "name"
              (VStr (value_str (get "name" result) +:+
                     JS.elem_str (rawHEX !! j))) result))
      (JS.range i (length rawHEX)) result.

(** [case 0x01] of the switch on [rawHEX[0]]; the inner switch is on
    [rawHEX[7]]. *)
Definition data_frame (raw rawHEX : list Z) (result : DecodedUplink)
    : outcome DecodedUplink :=
  let result := set "frame_type" (VStr "Data frame") result in
  if (length rawHEX <? 14)%nat then
    let result :=
      push_error
        "Invalid uplink payload: index out of bounds when reading Fram parameters"
        result in
    let result := delete_data result in
    Returned result
  else
    let i := 1%nat in
    let result :=
      set "tcp_ip"
        (VStr (JS.elem_str (raw !! i) +:+ "." +:+
               JS.elem_str (raw !! (i + 1)%nat) +:+ "." +:+
               JS.elem_str (raw !! (i + 2)%nat) +:+ "." +:+
               JS.elem_str (raw !! (i + 3)%nat))) result in
    let i := (i + 4)%nat in
    let result := set "tcp_port" (be16 raw i) result in
    let i := (i + 2)%nat in
    let result := set "slave_id" (of_elem (raw !! i)) result in
    let i := (i + 1)%nat in
    let result := set "modbus" (of_elem (raw !! i)) result in
    let i := (i + 1)%nat in
    let result := set "start_value" (be16 raw i) result in
    let i := (i + 2)%nat in
    let result := set "registers_quiered" (be16 raw i) result in
    let i := (i + 2)%nat in
    let result := set "data_bytes" (of_elem (raw !! i)) result in
    let i := (i + 1)%nat in
    if JS.is_case (rawHEX !! 7%nat) 0x0a then
      let result := set "c1" (be32 raw i) result in
      Returned result
    else if JS.is_case (rawHEX !! 7%nat) 0x0b then
      let result := set "c1" (be32 raw i) result in
      let i := (i + 4)%nat in
      let result := set "c2" (be32 raw i) result in
      Returned result
    else if JS.is_case (rawHEX !! 7%nat) 0x0c then
      let result := set "ea" (be32 raw i) result in
      let i := (i + 4)%nat in
      let result := set "er" (be32 raw i) result in
      Returned result
    else if JS.is_case (rawHEX !! 7%nat) 0xf7 then
      let result := set "ea_imp" (be32 raw i) result in
      let i := (i + 4)%nat in
      let result := set "er_ind_imp" (be32 raw i) result in
      let i := (i + 4)%nat in
      let result := set "er_cap_imp" (be32 raw i) result in
      let i := (i + 4)%nat in
      let result := set "es_imp" (be32 raw i) result in
      Returned result
    else
      let result :=
        push_error
          ("Invalid uplink payload: unknown id '" +:+
           JS.elem_str (raw !! i) +:+ "'") result in
      let result := delete_data result in
      Returned result.

(** The default case of the outer switch evaluates [raw[i]].  The only
    declarations of [i] are the [let i] of the two [else] blocks, which are
    out of scope there, and nothing in the file assigns a global [i]: the
    identifier does not resolve and the evaluation throws a
    [ReferenceError] before any error is pushed. *)
Definition decodeUplink (bytes : list Z) : outcome DecodedUplink :=
  let result : DecodedUplink := fresh in
  let raw := JS.Buffer_from bytes in
  let rawHEX := JS.Buffer_from_string (JS.Array_toString bytes) in
  if (30 <? length raw)%nat then
    let result :=
      push_error "Invalid uplink payload: length exceeds 30 bytes" result in
    let result := delete_data result in
    Returned result
  else if JS.is_case (rawHEX !! 0%nat) 0x11 then
    status_frame raw rawHEX result
  else if JS.is_case (rawHEX !! 0%nat) 0x01 then
    data_frame raw rawHEX result
  else Threw ReferenceError.

End Part001.

(** ** src/template/Electrex-vendor/drivers/sample-driver/index.js *)

(** [{bytes, fPort, errors, warnings}]; [bytes] and [fPort] are absent until
    they are assigned. *)
Module Encoded.
Record t : Type := mk {
  bytes : option (list Z);
  fPort : option Z;
  errors : list string;
  warnings : list string
}.
End Encoded.

(** How a loop with [return] statements in its body ends: the loop is left
    and the function goes on, or the function returns. *)
Inductive flow (V : Type) : Type :=
| Fallthrough (result : Decoded V)
| Return (result : Decoded V).

Arguments Fallthrough {V} result.
Arguments Return {V} result.

Module SampleDriver.

(** [ToNumber] on a downlink field. *)
Definition ToNumber (v : dvalue) : Z :=
  match v with
  | DNum z => z
  | DBool b => if b then 1 else 0
  end.

(** [ToBoolean] on a number. *)
Definition truthy (z : Z) : bool := negb (z =? 0).

Definition error_return {V : Type} (msg : string) (result : Decoded V)
    : outcome (flow V) :=
  let result := push_error msg result in
  let result := delete_data result in
  Returned (Return result).

(** [for (i = 1; i < raw.byteLength; i++) { switch (raw[i]) ... }]: the
    body moves [i] past the field and the loop adds one more. *)
Fixpoint status_loop (fuel : nat) (raw rawHEX : list Z) (i : nat)
    (result : DecodedUplink) : outcome (flow value) :=
  match fuel with
  | O => NoFuel
  | S fuel =>
    if (i <? length raw)%nat then
      if JS.is_case (raw !! i) 0x00 then
        if (length raw <? i + 4)%nat then
          error_return
            "Invalid uplink payload: index out of bounds when reading Device ID"
            result
        else
          let result :=
            set "device_id"
              (VStr (JS.elem_str (rawHEX !! i) +:+
                     JS.elem_str (rawHEX !! (i + 1)%nat) +:+
                     JS.elem_str (rawHEX !! (i + 2)%nat) +:+
                     JS.elem_str (rawHEX !! (i + 3)%nat))) result in
          let i := (i + 4)%nat in
          status_loop fuel raw rawHEX (i + 1)%nat result
      else if JS.is_case (raw !! i) 0x01 then
        if (length raw <? i + 1)%nat then
          error_return
            "Invalid uplink payload: index out of bounds when reading Target Port"
            result
        else
          let result :=
            set "port" (VStr (JS.elem_str (rawHEX !! i))) result in
          let i := (i + 1)%nat in
          status_loop fuel raw rawHEX (i + 1)%nat result
      else if JS.is_case (raw !! i) 0x02 then
        if (length raw <? i + 4)%nat then
          error_return
            "Invalid uplink payload: index out of bounds when reading Device Date Time"
            result
        else
          let result := set "device_date_time" (be32 raw i) result in
          let i := (i + 4)%nat in
          status_loop fuel raw rawHEX (i + 1)%nat result
      else if JS.is_case (raw !! i) 0x03 then
        if (length raw <? i + 3)%nat then
          error_return
            "Invalid uplink payload: index out of bounds when reading Firmware Version"
            result
        else
          let result :=
            set "firmware"
              (VStr (JS.elem_str (rawHEX !! i) +:+
                     JS.elem_str (rawHEX !! (i + 1)%nat) +:+
                     JS.elem_str (rawHEX !! (i + 2)%nat))) result in
          let i := (i + 3)%nat in
          status_loop fuel raw rawHEX (i + 1)%nat result
      else if JS.is_case (raw !! i) 0x04 then
        result ← JS.for_each
                   (fun j result =>
                      Returned
                        (set "name"
                           (VStr (value_str (get "name" result) +:+
                                  JS.elem_str (rawHEX !! j))) result))
                   (JS.range i (length raw)) result;
        Returned (Return result)
      else
        error_return
          ("Invalid uplink payload: unknown id '" +:+
           JS.elem_str (raw !! i) +:+ "'") result
    else Returned (Fallthrough result)
  end.

(** [for (i = 0; i < raw.byteLength; i++) { switch (raw[i]) ... }] *)
Fixpoint data_loop (fuel : nat) (raw : list Z) (i : nat)
    (result : DecodedUplink) : outcome (flow value) :=
  match fuel with
  | O => NoFuel
  | S fuel =>
    if (i <? length raw)%nat then
      if JS.is_case (raw !! i) 0x00 then
        if (length raw <? i + 3)%nat then
          error_return
            "Invalid uplink payload: index out of bounds when reading temperature"
            result
        else
          t ← JS.readInt16BE raw (i + 1);
          let result := set "temperature" (VCenti t) result in
          let i := (i + 2)%nat in
          data_loop fuel raw (i + 1)%nat result
      else if JS.is_case (raw !! i) 0x01 then
        if (length raw <? i + 3)%nat then
          error_return
            "Invalid uplink payload: index out of bounds when reading humidity"
            result
        else
          h ← JS.readInt16BE raw (i + 1);
          let result := set "humidity" (VCenti h) result in
          let i := (i + 2)%nat in
          data_loop fuel raw (i + 1)%nat result
      else if JS.is_case (raw !! i) 0x02 then
        c ← JS.readInt8 raw (i + 1);
        let result := set "pulseCounter" (VNum c) result in
        let i := (i + 1)%nat in
        data_loop fuel raw (i + 1)%nat result
      else
        error_return
          ("Invalid uplink payload: unknown id '" +:+
           JS.elem_str (raw !! i) +:+ "'") result
    else Returned (Fallthrough result)
  end.

(** [if (raw[0] = 17)] is an assignment: it stores 17 in the first byte
    (nothing is stored in an empty buffer) and its value, 17, is the
    condition. *)
Definition decodeUplink (bytes : list Z) : outcome DecodedUplink :=
  let result : DecodedUplink := fresh in
  let raw := JS.Buffer_from bytes in
  let rawHEX := JS.Buffer_from_string (JS.Array_toString bytes) in
  if (30 <? length raw)%nat then
    let result :=
      push_error "Invalid uplink payload: length exceeds 30 bytes" result in
    let result := delete_data result in
    Returned result
  else
    let raw := <[0%nat := 17]> raw in
    after_if ←
      (if truthy 17 then
         let result := set "frame" (VStr "Status frame") result in
         status_loop (S (length raw)) raw rawHEX 1 result
       else Returned (Fallthrough result));
    match after_if with
    | Return result => Returned result
    | Fallthrough result =>
        after_for ← data_loop (S (length raw)) raw 0 result;
        match after_for with
        | Return result => Returned result
        | Fallthrough result => Returned result
        end
    end.

(** [new Buffer(4)] *)
Definition new_Buffer4 : list Z := [0; 0; 0; 0].

Definition encodeDownlink (data : gmap string dvalue)
    : outcome Encoded.t :=
  let result := Encoded.mk None None [] [] in
  let raw := new_Buffer4 in
  let index := 0%nat in
  after_threshold ←
    match data !! "pulseCounterThreshold" with
    | Some pulseCounterThreshold =>
        if ToNumber pulseCounterThreshold >? 255 then
          let result :=
            Encoded.mk (Encoded.bytes result) (Encoded.fPort result)
              (Encoded.errors result ++
               ["Invalid downlink: pulseCounterThreshold cannot exceed 255"])
              (Encoded.warnings result) in
          (* [delete result.data] removes nothing: there is no such field *)
          Returned (inl result)
        else
          raw ← JS.writeUInt8 raw 0 index;
          let index := (index + 1)%nat in
          raw ← JS.writeUInt8 raw (ToNumber pulseCounterThreshold) index;
          let index := (index + 1)%nat in
          Returned (inr (raw, index))
    | None => Returned (inr (raw, index))
    end;
  match after_threshold with
  | inl result => Returned result
  | inr (raw, index) =>
      '(raw, index) ←
        match data !! "alarm" with
        | Some alarm =>
            raw ← JS.writeUInt8 raw 1 index;
            let index := (index + 1)%nat in
            raw ← JS.writeUInt8 raw
                    (match alarm with DBool true => 1 | _ => 0 end) index;
            let index := (index + 1)%nat in
            Returned (raw, index)
        | None => Returned (raw, index)
        end;
      (* [Array.from(raw).slice(0, index)] and [fPort = 16] *)
      Returned
        (Encoded.mk (Some (take index raw)) (Some 16)
           (Encoded.errors result) (Encoded.warnings result))
  end.

(** [for (i = 0; i < raw.byteLength; i += 2) { switch (raw[i]) ... }] *)
Fixpoint downlink_loop (fuel : nat) (raw : list Z) (i : nat)
    (result : DecodedDownlink) : outcome (flow dvalue) :=
  match fuel with
  | O => NoFuel
  | S fuel =>
    if (i <? length raw)%nat then
      if JS.is_case (raw !! i) 0x00 then
        if (length raw <? i + 2)%nat then
          error_return
            "Invalid downlink payload: index out of bounds when reading pulseCounterThreshold"
            result
        else
          v ← JS.readUInt8 raw (i + 1);
          let result := set "pulseCounterThreshold" (DNum v) result in
          downlink_loop fuel raw (i + 2)%nat result
      else if JS.is_case (raw !! i) 0x01 then
        if (length raw <? i + 2)%nat then
          error_return
            "Invalid downlink payload: index out of bounds when reading alarm"
            result
        else
          v ← JS.readUInt8 raw (i + 1);
          let result := set "alarm" (DBool (v =? 1)) result in
          downlink_loop fuel raw (i + 2)%nat result
      else
        error_return
          ("Invalid downlink payload: unknown id '" +:+
           JS.elem_str (raw !! i) +:+ "'") result
    else Returned (Fallthrough result)
  end.

Definition decodeDownlink (bytes : list Z) : outcome DecodedDownlink :=
  let result : DecodedDownlink := fresh in
  let raw := JS.Buffer_from bytes in
  if (4 <? length raw)%nat then
    let result :=
      push_error "Invalid downlink payload: length exceeds 4 bytes" result in
    let result := delete_data result in
    Returned result
  else
    after_for ← downlink_loop (S (length raw)) raw 0 result;
    match after_for with
    | Return result => Returned result
    | Fallthrough result => Returned result
    end.

End SampleDriver.

(** * Vocabulary of the statements *)

(** The result of the length guard, common to the three uplink decoders. *)
Definition too_long : DecodedUplink :=
  mkDecoded None ["Invalid uplink payload: length exceeds 30 bytes"] [].

(** The mappings of the round trip: every field is one of the two supported
    ones, the threshold an integer of [0, 255] and the alarm a boolean. *)
Definition supported (m : gmap string dvalue) : Prop :=
  forall k v, m !! k = Some v ->
    (k = "pulseCounterThreshold" /\ exists z, v = DNum z /\ 0 <= z <= 255) \/
    (k = "alarm" /\ exists b, v = DBool b).

(** The bytes that the encoder writes for the fields of [m]. *)
Definition field_bytes (m : gmap string dvalue) : list Z :=
  match m !! "pulseCounterThreshold" with
  | Some t => [0x00; SampleDriver.ToNumber t]
  | None => []
  end ++
  match m !! "alarm" with
  | Some (DBool true) => [0x01; 1]
  | Some _ => [0x01; 0]
  | None => []
  end.

(** The characters a decimal rendering can start with. *)
Definition leading_chars : list ascii :=
  ["-"; "0"; "1"; "2"; "3"; "4"; "5"; "6"; "7"; "8"; "9"]%char.

(** The fields of a status frame, as functions of the buffer. *)
Definition status_fields (raw : list Z) : gmap string value :=
  <[ "name" :=
       VStr (foldl (fun acc b => acc +:+ JS.toString16 b) "" (drop 13 raw)) ]>
  (<[ "firmware" :=
        VStr (JS.toString16 (raw !!! 10%nat) +:+ "." +:+
              JS.toString16 (raw !!! 11%nat) +:+ "." +:+
              JS.toString16 (raw !!! 12%nat)) ]>
  (<[ "device_date_time" :=
        VNum (raw !!! 6%nat * 256 ^ 3 + raw !!! 7%nat * 256 ^ 2 +
              raw !!! 8%nat * 256 + raw !!! 9%nat) ]>
  (<[ "port" := VNum (raw !!! 5%nat) ]>
  (<[ "device_id" :=
        VStr ("00" +:+ JS.toString16 (raw !!! 1%nat) +:+
              JS.toString16 (raw !!! 2%nat) +:+
              JS.toString16 (raw !!! 3%nat) +:+
              JS.toString16 (raw !!! 4%nat)) ]>
  {[ "frame_type" := VStr "Status frame" ]})))).

(** The characters [0-9] and [a-f]. *)
Definition is_hex_digit (c : ascii) : bool :=
  let n := N_of_ascii c in
  ((48 <=? n) && (n <=? 57) || (97 <=? n) && (n <=? 102))%N.

(** The string is made of hexadecimal digits. *)
Fixpoint all_hex (s : string) : bool :=
  match s with
  | EmptyString => true
  | String c s' => is_hex_digit c && all_hex s'
  end.

(** The number of characters of [b.toString(16)] for a byte [b]. *)
Definition hex_width (b : Z) : nat := if b <? 16 then 1%nat else 2%nat.

(** The check that is run on each of the 256 byte values. *)
Definition byte_rendering_ok (b : Z) : bool :=
  (String.length (JS.toString16 b) =? hex_width b)%nat &&
  all_hex (JS.toString16 b).

(** The bytes of the scenario: the byte at position 7 is the slave
    identifier, 5. *)
Definition scenario_bytes : list Z :=
  [0x01; 10; 0; 0; 1; 0; 80; 5; 3; 0; 0; 0; 1; 4; 0; 0; 0; 42].

(** The unsigned 32-bit big-endian number stored at [raw[i .. i+3]]. *)
Definition u32 (raw : list Z) (i : nat) : Z :=
  raw !!! i * 256 ^ 3 + raw !!! (i + 1)%nat * 256 ^ 2 +
  raw !!! (i + 2)%nat * 256 + raw !!! (i + 3)%nat.

(** The unsigned 16-bit big-endian number stored at [raw[i .. i+1]]. *)
Definition u16 (raw : list Z) (i : nat) : Z :=
  raw !!! i * 256 + raw !!! (i + 1)%nat.

(** A result that carries data and no error, or one error and no data; no
    warning in either case. *)
Definition exclusive {V : Type} (r : Decoded V) : Prop :=
  warnings r = [] /\
  ((errors r = [] /\ is_Some (data r)) \/
   (data r = None /\ exists msg, errors r = [msg])).

(** A result with one error and no data. *)
Definition rejected {V : Type} (r : Decoded V) : Prop :=
  warnings r = [] /\ data r = None /\ exists msg, errors r = [msg].

(** A result with data and no error. *)
Definition accepted {V : Type} (r : Decoded V) : Prop :=
  warnings r = [] /\ errors r = [] /\ is_Some (data r).

(** None of the fields of the data stream of the sample driver is set. *)
Definition no_measurement (r : DecodedUplink) : Prop :=
  get "temperature" r = None /\ get "humidity" r = None /\
  get "pulseCounter" r = None.

(** The name starts with the text of [undefined]. *)
Definition named (r : DecodedUplink) : Prop :=
  exists s, get "name" r = Some (VStr ("undefined" +:+ s)).

(** The four sub-types of a data frame, by the value of [raw[7]]. *)
Definition subtypes : list Z := [0x0a; 0x0b; 0x0c; 0xf7].

(** * Properties *)

(** ** Length guard (all three drivers) *)

Lemma Buffer_from_length (bytes : list Z) :
  length (JS.Buffer_from bytes) = length bytes.
Proof. unfold JS.Buffer_from. apply length_fmap. Qed.

Lemma Buffer_from_bounds (bytes : list Z) (i : nat) (v : Z) :
  JS.Buffer_from bytes !! i = Some v -> 0 <= v < 256.
Proof.
  unfold JS.Buffer_from. rewrite list_lookup_fmap.
  destruct (bytes !! i) as [b|]; simpl; [|discriminate].
  intros [= <-]. apply Z.mod_pos_bound. lia.
Qed.

Lemma Buffer_from_id (bytes : list Z) :
  Forall (fun b => 0 <= b < 256) bytes -> JS.Buffer_from bytes = bytes.
Proof.
  unfold JS.Buffer_from. induction 1 as [|b bs Hb _ IH]; simpl; [reflexivity|].
  rewrite Z.mod_small by exact Hb. f_equal. exact IH.
Qed.

(** C6: an uplink of more than 30 bytes is answered, by each of the three
    decoders, with the single error "length exceeds 30 bytes" and without a
    data field, whatever the bytes are. *)
Theorem C6_payload_too_long (bytes : list Z) :
  (30 < length bytes)%nat ->
  Part000.decodeUplink bytes = Returned too_long /\
  Part001.decodeUplink bytes = Returned too_long /\
  SampleDriver.decodeUplink bytes = Returned too_long.
Proof.
  intros Hlen.
  assert (Hguard : (30 <? length (JS.Buffer_from bytes))%nat = true).
  { rewrite Buffer_from_length. apply Nat.ltb_lt. exact Hlen. }
  unfold Part000.decodeUplink, Part001.decodeUplink, SampleDriver.decodeUplink.
  rewrite Hguard. repeat split.
Qed.

Lemma C6_payload_too_long_witness :
  (30 < length (replicate 31 0x11))%nat /\
  Part000.decodeUplink (replicate 31 0x11) = Returned too_long /\
  Part001.decodeUplink (replicate 31 0x11) = Returned too_long /\
  SampleDriver.decodeUplink (replicate 31 0x11) = Returned too_long.
Proof.
  split; [vm_compute; lia | apply (C6_payload_too_long (replicate 31 0x11))].
  vm_compute. lia.
Defined.

(** ** Downlink encoding: the two scenarios and the missing lower bound *)

(** C7: [{pulseCounterThreshold: 10}] is encoded as the bytes [0x00, 10] on
    port 16 without errors; [{pulseCounterThreshold: 300}] gives the error
    "cannot exceed 255" and a result without [bytes]. *)
Theorem C7_encodeDownlink_scenarios :
  SampleDriver.encodeDownlink {[ "pulseCounterThreshold" := DNum 10 ]}
  = Returned (Encoded.mk (Some [0x00; 10]) (Some 16) [] []) /\
  SampleDriver.encodeDownlink {[ "pulseCounterThreshold" := DNum 300 ]}
  = Returned
      (Encoded.mk None None
         ["Invalid downlink: pulseCounterThreshold cannot exceed 255"] []).
Proof. split; vm_compute; reflexivity. Qed.

(** C10: the threshold is only compared with 255; on
    [{pulseCounterThreshold: -1}] the encoder does not return an error
    result, the unsigned byte write throws. *)
Theorem C10_encodeDownlink_negative_throws :
  SampleDriver.encodeDownlink {[ "pulseCounterThreshold" := DNum (-1) ]}
  = Threw RangeError.
Proof. vm_compute. reflexivity. Qed.

(** Every threshold below zero takes that path. *)
Lemma encodeDownlink_below_zero (data : gmap string dvalue) (z : Z) :
  data !! "pulseCounterThreshold" = Some (DNum z) -> z < 0 ->
  SampleDriver.encodeDownlink data = Threw RangeError.
Proof.
  intros Hk Hz. unfold SampleDriver.encodeDownlink. rewrite Hk. simpl.
  destruct (Z.gtb_spec z 255) as [Hgt|_]; [lia|].
  unfold JS.writeUInt8.
  destruct (Z.gtb_spec z 255) as [Hgt|_]; [lia|].
  destruct (Z.ltb_spec z 0) as [_|Hge]; [|lia].
  reflexivity.
Qed.

(** ** Downlink round trip *)

Lemma writeUInt8_byte (raw : list Z) (v : Z) (i : nat) :
  0 <= v <= 255 -> (i < length raw)%nat ->
  JS.writeUInt8 raw v i = Returned (<[i := v]> raw).
Proof.
  intros Hv Hi. unfold JS.writeUInt8.
  destruct (Z.gtb_spec v 255) as [Hgt|_]; [lia|].
  destruct (Z.ltb_spec v 0) as [Hlt|_]; [lia|]. simpl.
  destruct (lookup_lt_is_Some_2 raw i Hi) as [x ->]. reflexivity.
Qed.

Lemma supported_threshold (m : gmap string dvalue) (v : dvalue) :
  supported m -> m !! "pulseCounterThreshold" = Some v ->
  exists z, v = DNum z /\ 0 <= z <= 255.
Proof.
  intros Hm Hk. destruct (Hm _ _ Hk) as [[_ H]|[H _]]; [exact H|discriminate].
Qed.

Lemma supported_alarm (m : gmap string dvalue) (v : dvalue) :
  supported m -> m !! "alarm" = Some v -> exists b, v = DBool b.
Proof.
  intros Hm Hk. destruct (Hm _ _ Hk) as [[H _]|[_ H]]; [discriminate|exact H].
Qed.

Lemma supported_other (m : gmap string dvalue) (k : string) :
  supported m -> k <> "pulseCounterThreshold" -> k <> "alarm" -> m !! k = None.
Proof.
  intros Hm H1 H2. destruct (m !! k) as [v|] eqn:Hk; [|reflexivity].
  destruct (Hm _ _ Hk) as [[H _]|[H _]]; contradiction.
Qed.

Lemma encodeDownlink_supported (m : gmap string dvalue) :
  supported m ->
  SampleDriver.encodeDownlink m
  = Returned (Encoded.mk (Some (field_bytes m)) (Some 16) [] []).
Proof.
  intros Hm.
  pose proof (supported_threshold m) as Ht.
  unfold SampleDriver.encodeDownlink, field_bytes.
  destruct (m !! "pulseCounterThreshold") as [t|].
  - destruct (Ht t Hm eq_refl) as (z & -> & Hz).
    simpl SampleDriver.ToNumber.
    destruct (Z.gtb_spec z 255) as [Hgt|_]; [lia|].
    rewrite (writeUInt8_byte _ 0 0) by (simpl; lia). simpl.
    rewrite (writeUInt8_byte _ z 1) by (simpl; lia). simpl.
    destruct (m !! "alarm") as [[n|[|]]|]; reflexivity.
  - simpl. destruct (m !! "alarm") as [[n|[|]]|]; reflexivity.
Qed.

Lemma decodeDownlink_threshold (z : Z) :
  0 <= z <= 255 ->
  SampleDriver.decodeDownlink [0x00; z]
  = Returned (mkDecoded (Some {[ "pulseCounterThreshold" := DNum z ]}) [] []).
Proof.
  intros Hz. unfold SampleDriver.decodeDownlink.
  rewrite Buffer_from_id by (repeat constructor; lia).
  reflexivity.
Qed.

Lemma decodeDownlink_alarm (b : bool) :
  SampleDriver.decodeDownlink [0x01; if b then 1 else 0]
  = Returned (mkDecoded (Some {[ "alarm" := DBool b ]}) [] []).
Proof. destruct b; vm_compute; reflexivity. Qed.

Lemma decodeDownlink_both (z : Z) (b : bool) :
  0 <= z <= 255 ->
  SampleDriver.decodeDownlink [0x00; z; 0x01; if b then 1 else 0]
  = Returned
      (mkDecoded
         (Some (<[ "alarm" := DBool b ]>
                  {[ "pulseCounterThreshold" := DNum z ]})) [] []).
Proof.
  intros Hz. unfold SampleDriver.decodeDownlink.
  rewrite Buffer_from_id by (destruct b; repeat constructor; lia).
  destruct b; reflexivity.
Qed.

(** C3: on a mapping of supported fields the encoder succeeds without errors
    and the decoder, applied to the bytes it produced, gives the mapping
    back without errors. *)
Theorem C3_downlink_roundtrip (m : gmap string dvalue) :
  supported m ->
  exists bytes,
    SampleDriver.encodeDownlink m
    = Returned (Encoded.mk (Some bytes) (Some 16) [] []) /\
    SampleDriver.decodeDownlink bytes = Returned (mkDecoded (Some m) [] []).
Proof.
  intros Hm. exists (field_bytes m).
  split; [apply encodeDownlink_supported; exact Hm|].
  pose proof (supported_threshold m) as Ht.
  pose proof (supported_alarm m) as Ha.
  pose proof (supported_other m) as Ho.
  unfold field_bytes.
  destruct (m !! "pulseCounterThreshold") as [t|] eqn:Et;
    destruct (m !! "alarm") as [a|] eqn:Ea.
  - destruct (Ht t Hm eq_refl) as (z & -> & Hz).
    destruct (Ha a Hm eq_refl) as (b & ->).
    replace (match DBool b with DBool true => [0x01; 1] | _ => [0x01; 0] end)
      with [0x01; if b then 1 else 0] by (destruct b; reflexivity).
    simpl. rewrite decodeDownlink_both by exact Hz.
    do 3 f_equal. apply map_eq. intros k.
    destruct (decide (k = "alarm")) as [->|Hk1].
    { rewrite lookup_insert_eq. symmetry. exact Ea. }
    rewrite lookup_insert_ne by congruence.
    destruct (decide (k = "pulseCounterThreshold")) as [->|Hk2].
    { rewrite lookup_singleton_eq. symmetry. exact Et. }
    rewrite lookup_singleton_ne by congruence.
    symmetry. apply Ho; assumption.
  - destruct (Ht t Hm eq_refl) as (z & -> & Hz).
    simpl. rewrite decodeDownlink_threshold by exact Hz.
    do 3 f_equal. apply map_eq. intros k.
    destruct (decide (k = "pulseCounterThreshold")) as [->|Hk2].
    { rewrite lookup_singleton_eq. symmetry. exact Et. }
    rewrite lookup_singleton_ne by congruence.
    destruct (decide (k = "alarm")) as [->|Hk1]; [symmetry; exact Ea|].
    symmetry. apply Ho; assumption.
  - destruct (Ha a Hm eq_refl) as (b & ->).
    replace (match DBool b with DBool true => [0x01; 1] | _ => [0x01; 0] end)
      with [0x01; if b then 1 else 0] by (destruct b; reflexivity).
    simpl. rewrite decodeDownlink_alarm.
    do 3 f_equal. apply map_eq. intros k.
    destruct (decide (k = "alarm")) as [->|Hk1].
    { rewrite lookup_singleton_eq. symmetry. exact Ea. }
    rewrite lookup_singleton_ne by congruence.
    destruct (decide (k = "pulseCounterThreshold")) as [->|Hk2];
      [symmetry; exact Et|].
    symmetry. apply Ho; assumption.
  - simpl. replace (SampleDriver.decodeDownlink [])
      with (Returned (mkDecoded (Some (∅ : gmap string dvalue)) [] []))
      by (vm_compute; reflexivity).
    do 3 f_equal. apply map_eq. intros k. rewrite lookup_empty.
    destruct (decide (k = "pulseCounterThreshold")) as [->|Hk2];
      [symmetry; exact Et|].
    destruct (decide (k = "alarm")) as [->|Hk1]; [symmetry; exact Ea|].
    symmetry. apply Ho; assumption.
Qed.

Lemma C3_downlink_roundtrip_witness :
  exists bytes,
    SampleDriver.encodeDownlink
      (<[ "alarm" := DBool true ]> {[ "pulseCounterThreshold" := DNum 200 ]})
    = Returned (Encoded.mk (Some bytes) (Some 16) [] []) /\
    SampleDriver.decodeDownlink bytes
    = Returned
        (mkDecoded
           (Some (<[ "alarm" := DBool true ]>
                    {[ "pulseCounterThreshold" := DNum 200 ]})) [] []).
Proof.
  apply (C3_downlink_roundtrip
           (<[ "alarm" := DBool true ]>
              {[ "pulseCounterThreshold" := DNum 200 ]})).
  intros k v.
  destruct (decide (k = "alarm")) as [->|Hk1].
  { rewrite lookup_insert_eq. intros [= <-]. right. split; [reflexivity|].
    exists true. reflexivity. }
  rewrite lookup_insert_ne by congruence.
  destruct (decide (k = "pulseCounterThreshold")) as [->|Hk2].
  { rewrite lookup_singleton_eq. intros [= <-]. left. split; [reflexivity|].
    exists 200. split; [reflexivity|lia]. }
  rewrite lookup_singleton_ne by congruence. discriminate.
Defined.

(** ** The discriminator of part_001 *)

Lemma toString10_head (z : Z) :
  exists c s, JS.toString10 z = String c s /\ In c leading_chars.
Proof.
  unfold JS.toString10.
  destruct (Z.to_int z) as [u|u]; simpl.
  - destruct u; simpl; eexists _, _; (split; [reflexivity|]); simpl; tauto.
  - eexists _, _. split; [reflexivity|]. simpl. tauto.
Qed.

Lemma Array_toString_head (b : Z) (bs : list Z) :
  exists c s, JS.Array_toString (b :: bs) = String c s /\ In c leading_chars.
Proof.
  destruct (toString10_head b) as (c & s & Hs & Hc).
  unfold JS.Array_toString.
  destruct bs as [|b' bs]; simpl; rewrite Hs; eexists c, _;
    (split; [|exact Hc]); simpl; reflexivity.
Qed.

(** [rawHEX[0]] is [undefined] or the code of a leading character, which is
    neither 0x11 nor 0x01. *)
Lemma rawHEX_discriminator (bytes : list Z) (v : Z) :
  In v [0x11; 0x01] ->
  JS.is_case (JS.Buffer_from_string (JS.Array_toString bytes) !! 0%nat) v
  = false.
Proof.
  intros Hv. destruct bytes as [|b bs]; [reflexivity|].
  destruct (Array_toString_head b bs) as (c & s & -> & Hc).
  simpl in Hc, Hv.
  repeat (destruct Hc as [<-|Hc]); try contradiction;
    repeat (destruct Hv as [<-|Hv]); try contradiction; reflexivity.
Qed.

(** C9: in part_001 the switch is on the first byte of the text of the
    array, which is never 0x11 nor 0x01; on every input of at most 30 bytes
    the default case is taken, the read of [i] throws, and no result, decoded
    or not, is returned. *)
Theorem C9_part001_always_throws (bytes : list Z) :
  (length bytes <= 30)%nat ->
  let rawHEX := JS.Buffer_from_string (JS.Array_toString bytes) in
  rawHEX !! 0%nat <> Some 0x11 /\
  rawHEX !! 0%nat <> Some 0x01 /\
  Part001.decodeUplink bytes = Threw ReferenceError.
Proof.
  intros Hlen rawHEX.
  pose proof (rawHEX_discriminator bytes 0x11 ltac:(simpl; tauto)) as H11.
  pose proof (rawHEX_discriminator bytes 0x01 ltac:(simpl; tauto)) as H01.
  fold rawHEX in H11, H01.
  split; [|split].
  - intros E. rewrite E in H11. discriminate.
  - intros E. rewrite E in H01. discriminate.
  - unfold Part001.decodeUplink. fold rawHEX.
    rewrite Buffer_from_length.
    destruct (Nat.ltb_spec 30 (length bytes)) as [Hgt|_]; [lia|].
    rewrite H11, H01. reflexivity.
Qed.

Lemma C9_part001_always_throws_witness :
  (length [0x11; 1; 2; 3] <= 30)%nat /\
  JS.Buffer_from_string (JS.Array_toString [0x11; 1; 2; 3]) !! 0%nat
  <> Some 0x11 /\
  JS.Buffer_from_string (JS.Array_toString [0x11; 1; 2; 3]) !! 0%nat
  <> Some 0x01 /\
  Part001.decodeUplink [0x11; 1; 2; 3] = Threw ReferenceError.
Proof.
  split; [simpl; lia|].
  apply (C9_part001_always_throws [0x11; 1; 2; 3]). simpl. lia.
Defined.

(** ** Status frames of part_000 *)

Lemma lookup_byte (raw : list Z) (i : nat) :
  (i < length raw)%nat -> raw !! i = Some (raw !!! i).
Proof. apply list_lookup_lookup_total_lt. Qed.

(** The loop that appends the rest of the name never leaves the buffer. *)
Lemma name_loop (raw : list Z) (n lo : nat) (name : string) :
  (lo + n = length raw)%nat ->
  JS.for_each
    (fun j name => h ← JS.elem_toString16 (raw !! j); Returned (name +:+ h))
    (seq lo n) name
  = Returned (foldl (fun acc b => acc +:+ JS.toString16 b) name (drop lo raw)).
Proof.
  revert lo name. induction n as [|n IH]; intros lo name Hlen.
  - rewrite drop_ge by lia. reflexivity.
  - assert (Hlo : (lo < length raw)%nat) by lia.
    pose proof (lookup_byte raw lo Hlo) as Hb.
    rewrite (drop_S _ _ _ Hb). simpl. rewrite Hb. simpl.
    apply IH. lia.
Qed.

Lemma status_frame_short (raw : list Z) :
  (length raw < 13)%nat ->
  Part000.status_frame raw fresh
  = Returned
      (mkDecoded None
         ["Invalid uplink payload: index out of bounds when reading status frame"]
         []).
Proof.
  intros Hlen. unfold Part000.status_frame.
  destruct (Nat.ltb_spec (length raw) 13) as [_|Hge]; [reflexivity|lia].
Qed.

(** Rewrites the reads [raw !! k] that are inside the buffer. *)
Ltac read_bytes raw :=
  repeat match goal with
         | |- context [raw !! ?k] =>
             rewrite (lookup_byte raw k) by (simpl; lia)
         end.

Lemma status_frame_13 (raw : list Z) (result : DecodedUplink) :
  length raw = 13%nat -> Part000.status_frame raw result = Threw TypeError.
Proof.
  intros Hlen. unfold Part000.status_frame.
  destruct (Nat.ltb_spec (length raw) 13) as [Hlt|_]; [lia|].
  cbv zeta. cbn [Nat.add].
  rewrite (lookup_ge_None_2 raw 13) by lia.
  read_bytes raw. reflexivity.
Qed.

Lemma status_frame_ok (raw : list Z) :
  (14 <= length raw)%nat ->
  Part000.status_frame raw fresh
  = Returned (mkDecoded (Some (status_fields raw)) [] []).
Proof.
  intros Hlen. unfold Part000.status_frame.
  destruct (Nat.ltb_spec (length raw) 13) as [Hlt|_]; [lia|].
  cbv zeta. cbn [Nat.add]. unfold be32, JS.range.
  unfold status_fields.
  rewrite (drop_S raw (raw !!! 13%nat) 13) by (apply lookup_byte; lia).
  read_bytes raw.
  cbn [mbind outcome_bind JS.elem_toString16 Nat.add].
  rewrite (name_loop raw (length raw - 14) 14) by lia.
  reflexivity.
Qed.

Lemma leading_byte (bytes : list Z) (v : Z) :
  bytes !! 0%nat = Some v -> JS.Buffer_from bytes !! 0%nat = Some (v mod 256).
Proof.
  intros H. unfold JS.Buffer_from. rewrite list_lookup_fmap, H. reflexivity.
Qed.

Lemma Part000_status (bytes : list Z) :
  bytes !! 0%nat = Some 0x11 -> (length bytes <= 30)%nat ->
  Part000.decodeUplink bytes
  = Part000.status_frame (JS.Buffer_from bytes) fresh.
Proof.
  intros H0 Hlen. unfold Part000.decodeUplink.
  rewrite Buffer_from_length.
  destruct (Nat.ltb_spec 30 (length bytes)) as [Hgt|_]; [lia|].
  rewrite (leading_byte _ _ H0). reflexivity.
Qed.

(** The first half of C4: a status frame of fewer than 13 bytes, so one of
    12 bytes, is refused for its length and carries no data. *)
Lemma Part000_status_truncated (bytes : list Z) :
  bytes !! 0%nat = Some 0x11 -> (length bytes < 13)%nat ->
  Part000.decodeUplink bytes
  = Returned
      (mkDecoded None
         ["Invalid uplink payload: index out of bounds when reading status frame"]
         []).
Proof.
  intros H0 Hlen. rewrite Part000_status by (exact H0 || lia).
  apply status_frame_short. rewrite Buffer_from_length. exact Hlen.
Qed.

(** From 14 bytes on a status frame is decoded: all six fields, no error. *)
Lemma Part000_status_decoded (bytes : list Z) :
  bytes !! 0%nat = Some 0x11 -> (14 <= length bytes <= 30)%nat ->
  Part000.decodeUplink bytes
  = Returned (mkDecoded (Some (status_fields (JS.Buffer_from bytes))) [] []).
Proof.
  intros H0 Hlen. rewrite Part000_status by (exact H0 || lia).
  apply status_frame_ok. rewrite Buffer_from_length. lia.
Qed.

(** C4: the guard of the status frame lets 13 bytes through, but the name is
    read from [raw[13]]: on every status frame of exactly 13 bytes the
    decoder throws a [TypeError] instead of succeeding. *)
Theorem C4_status_frame_13_bytes_throws (bytes : list Z) :
  bytes !! 0%nat = Some 0x11 -> length bytes = 13%nat ->
  Part000.decodeUplink bytes = Threw TypeError.
Proof.
  intros H0 Hlen. rewrite Part000_status by (exact H0 || lia).
  apply status_frame_13. rewrite Buffer_from_length. exact Hlen.
Qed.

Lemma C4_status_frame_13_bytes_throws_witness :
  Part000.decodeUplink [0x11; 0; 0; 0; 1; 2; 0; 0; 0; 60; 1; 0; 3]
  = Threw TypeError.
Proof.
  apply (C4_status_frame_13_bytes_throws
           [0x11; 0; 0; 0; 1; 2; 0; 0; 0; 60; 1; 0; 3]); reflexivity.
Defined.

(** ** The device identifier of a status frame *)

Lemma length_append (s t : string) :
  String.length (s +:+ t) = (String.length s + String.length t)%nat.
Proof. induction s as [|c s IH]; simpl; [reflexivity|]. rewrite IH. reflexivity. Qed.

Lemma all_hex_append (s t : string) :
  all_hex (s +:+ t) = all_hex s && all_hex t.
Proof.
  induction s as [|c s IH]; simpl; [reflexivity|].
  rewrite IH. apply andb_assoc.
Qed.

Lemma toString16_byte (b : Z) :
  0 <= b < 256 ->
  String.length (JS.toString16 b) = hex_width b /\
  all_hex (JS.toString16 b) = true.
Proof.
  intros Hb.
  assert (Hall : forallb (fun n => byte_rendering_ok (Z.of_nat n)) (seq 0 256)
                 = true) by (vm_compute; reflexivity).
  rewrite forallb_forall in Hall.
  specialize (Hall (Z.to_nat b)). rewrite Z2Nat.id in Hall by lia.
  assert (Hin : In (Z.to_nat b) (seq 0 256)) by (apply in_seq; lia).
  apply Hall in Hin. unfold byte_rendering_ok in Hin.
  apply andb_prop in Hin as [Hl Hh]. split; [|exact Hh].
  apply Nat.eqb_eq. exact Hl.
Qed.

Lemma hex_width_bounds (b : Z) : (1 <= hex_width b <= 2)%nat.
Proof. unfold hex_width. destruct (b <? 16); lia. Qed.

(** C8, as the code has it: on every status frame that is decoded (14 to 30
    bytes) the device identifier is "00" followed by the four bytes in
    hexadecimal without padding, one digit for a byte below 16 and two
    otherwise; it is made of 6 to 10 hexadecimal digits. *)
Theorem C8_device_id_rendering (bytes : list Z) :
  bytes !! 0%nat = Some 0x11 -> (14 <= length bytes <= 30)%nat ->
  let raw := JS.Buffer_from bytes in
  exists result id,
    Part000.decodeUplink bytes = Returned result /\
    errors result = [] /\
    get "device_id" result = Some (VStr id) /\
    id = "00" +:+ JS.toString16 (raw !!! 1%nat) +:+
         JS.toString16 (raw !!! 2%nat) +:+ JS.toString16 (raw !!! 3%nat) +:+
         JS.toString16 (raw !!! 4%nat) /\
    all_hex id = true /\
    String.length id
    = (2 + hex_width (raw !!! 1%nat) + hex_width (raw !!! 2%nat) +
       hex_width (raw !!! 3%nat) + hex_width (raw !!! 4%nat))%nat /\
    (6 <= String.length id <= 10)%nat.
Proof.
  intros H0 Hlen raw.
  assert (Hraw : (14 <= length raw)%nat)
    by (unfold raw; rewrite Buffer_from_length; lia).
  assert (Hbyte : forall k, (k < 14)%nat -> 0 <= raw !!! k < 256).
  { intros k Hk. apply (Buffer_from_bounds bytes k).
    fold raw. apply lookup_byte. lia. }
  destruct (toString16_byte _ (Hbyte 1%nat ltac:(lia))) as [L1 X1].
  destruct (toString16_byte _ (Hbyte 2%nat ltac:(lia))) as [L2 X2].
  destruct (toString16_byte _ (Hbyte 3%nat ltac:(lia))) as [L3 X3].
  destruct (toString16_byte _ (Hbyte 4%nat ltac:(lia))) as [L4 X4].
  eexists _, _. split; [apply Part000_status_decoded; assumption|].
  fold raw. split; [reflexivity|]. split.
  { unfold get, status_fields. simpl.
    do 4 (rewrite lookup_insert_ne by discriminate).
    apply lookup_insert_eq. }
  split; [reflexivity|].
  assert (Hlength :
    String.length
      ("00" +:+ JS.toString16 (raw !!! 1%nat) +:+
       JS.toString16 (raw !!! 2%nat) +:+ JS.toString16 (raw !!! 3%nat) +:+
       JS.toString16 (raw !!! 4%nat))
    = (2 + hex_width (raw !!! 1%nat) + hex_width (raw !!! 2%nat) +
       hex_width (raw !!! 3%nat) + hex_width (raw !!! 4%nat))%nat).
  { rewrite !length_append, L1, L2, L3, L4. simpl. lia. }
  split; [|split].
  - rewrite !all_hex_append, X1, X2, X3, X4. reflexivity.
  - exact Hlength.
  - rewrite Hlength.
    pose proof (hex_width_bounds (raw !!! 1%nat)).
    pose proof (hex_width_bounds (raw !!! 2%nat)).
    pose proof (hex_width_bounds (raw !!! 3%nat)).
    pose proof (hex_width_bounds (raw !!! 4%nat)). lia.
Qed.

Lemma C8_device_id_rendering_witness :
  let raw :=
    JS.Buffer_from [0x11; 0x12; 0x34; 0x56; 0x78; 1; 0; 0; 0; 60; 1; 0; 3; 65] in
  exists result id,
    Part000.decodeUplink
      [0x11; 0x12; 0x34; 0x56; 0x78; 1; 0; 0; 0; 60; 1; 0; 3; 65]
    = Returned result /\
    errors result = [] /\
    get "device_id" result = Some (VStr id) /\
    id = "00" +:+ JS.toString16 (raw !!! 1%nat) +:+
         JS.toString16 (raw !!! 2%nat) +:+ JS.toString16 (raw !!! 3%nat) +:+
         JS.toString16 (raw !!! 4%nat) /\
    all_hex id = true /\
    String.length id
    = (2 + hex_width (raw !!! 1%nat) + hex_width (raw !!! 2%nat) +
       hex_width (raw !!! 3%nat) + hex_width (raw !!! 4%nat))%nat /\
    (6 <= String.length id <= 10)%nat.
Proof.
  apply (C8_device_id_rendering
           [0x11; 0x12; 0x34; 0x56; 0x78; 1; 0; 0; 0; 60; 1; 0; 3; 65]).
  - reflexivity.
  - simpl. lia.
Defined.

(** The claim of C8 as it is written fails: the status frame with the
    identifier bytes 1, 2, 3, 4 is decoded without error and its identifier
    is "001234", six characters and not eight. *)
Lemma C8_counterexample :
  exists result id,
    Part000.decodeUplink [0x11; 1; 2; 3; 4; 1; 0; 0; 0; 60; 1; 0; 3; 65]
    = Returned result /\
    errors result = [] /\
    get "device_id" result = Some (VStr id) /\
    id = "001234" /\
    String.length id <> 8%nat.
Proof.
  eexists _, _. split; [vm_compute; reflexivity|].
  split; [reflexivity|]. split; [vm_compute; reflexivity|].
  split; [reflexivity|]. simpl. lia.
Qed.

(** ** The data-frame scenario *)

(** The inner switch is on [raw[7]], which is 5 here: the frame is refused as
    an unknown data frame. *)
Lemma scenario_rejected :
  Part000.decodeUplink scenario_bytes
  = Returned
      (mkDecoded None ["Invalid uplink payload: unknown data frame type"] []).
Proof. vm_compute. reflexivity. Qed.

(** The claim of C5 as it is written fails: on the bytes of the scenario the
    decoder does not return a result without errors whose [c1] is 42. *)
Lemma C5_counterexample :
  ~ exists result,
      Part000.decodeUplink scenario_bytes = Returned result /\
      errors result = [] /\
      get "tcp_ip" result = Some (VStr "10.0.0.1") /\
      get "tcp_port" result = Some (VNum 80) /\
      get "slave_id" result = Some (VNum 5) /\
      get "modbus" result = Some (VNum 3) /\
      get "start_value" result = Some (VNum 0) /\
      get "registers_quiered" result = Some (VNum 1) /\
      get "data_bytes" result = Some (VNum 4) /\
      get "c1" result = Some (VNum 42).
Proof.
  intros (result & Hdec & Herr & _).
  rewrite scenario_rejected in Hdec. injection Hdec as <-.
  discriminate Herr.
Qed.

(** C5, as the code has it: with the slave identifier 0x0a at position 7 the
    gas-meter case is taken; the header fields are those of the scenario
    (the slave identifier being 10), [c1] is 42 and there is no error. *)
Theorem C5_gas_meter_scenario :
  Part000.decodeUplink
    [0x01; 10; 0; 0; 1; 0; 80; 0x0a; 3; 0; 0; 0; 1; 4; 0; 0; 0; 42]
  = Returned
      (mkDecoded
         (Some
            (list_to_map
               [("frame_type", VStr "Data frame - GAS METER");
                ("tcp_ip", VStr "10.0.0.1");
                ("tcp_port", VNum 80);
                ("slave_id", VNum 10);
                ("modbus", VNum 3);
                ("start_value", VNum 0);
                ("registers_quiered", VNum 1);
                ("data_bytes", VNum 4);
                ("c1", VNum 42)]))
         [] []).
Proof. vm_compute. reflexivity. Qed.

(** ** Uplinks on which a decoder throws or misses the frame type *)

(** C1: two uplinks on which a decoder throws instead of returning a result:
    in part_001 the default case reads the variable [i], which is not in
    scope; in part_000 a status frame of 13 bytes reads [raw[13]]. *)
Theorem C1_decodeUplink_throws :
  Part001.decodeUplink [0x11] = Threw ReferenceError /\
  Part000.decodeUplink [0x11; 0; 0; 0; 1; 2; 0; 0; 0; 60; 1; 0; 3]
  = Threw TypeError.
Proof. split; vm_compute; reflexivity. Qed.

(** C2: two uplinks whose leading byte, 5, is no discriminator and no tag:
    part_001 throws on the first; the sample driver overwrites the leading
    byte with 17, reads the tag 0x04 that follows and returns a name without
    any error. *)
Theorem C2_unknown_frame_type_missed :
  Part001.decodeUplink [5] = Threw ReferenceError /\
  SampleDriver.decodeUplink [5; 4]
  = Returned
      (mkDecoded
         (Some
            (list_to_map
               [("frame", VStr "Status frame");
                ("name", VStr "undefined44")]))
         [] []).
Proof. split; vm_compute; reflexivity. Qed.

(** In part_000 the claim of C2 holds: a leading byte other than 0x11 and
    0x01, or none at all, gives the error "unknown frame type"; the data
    object is kept, and it is empty. *)
Lemma Part000_unknown_frame_type (bytes : list Z) :
  (length bytes <= 30)%nat ->
  JS.Buffer_from bytes !! 0%nat <> Some 0x11 ->
  JS.Buffer_from bytes !! 0%nat <> Some 0x01 ->
  Part000.decodeUplink bytes
  = Returned
      (mkDecoded (Some ∅) ["Invalid uplink payload: unknown frame type"] []).
Proof.
  intros Hlen H11 H01. unfold Part000.decodeUplink.
  rewrite Buffer_from_length.
  destruct (Nat.ltb_spec 30 (length bytes)) as [Hgt|_]; [lia|].
  destruct (JS.Buffer_from bytes !! 0%nat) as [b|]; simpl; [|reflexivity].
  destruct (Z.eqb_spec b 0x11) as [->|_]; [contradiction|].
  destruct (Z.eqb_spec b 0x01) as [->|_]; [contradiction|].
  reflexivity.
Qed.

(** The data frame of part_000 never throws: a read outside the buffer
    gives [undefined] or [NaN]. *)
Lemma Part000_data_frame_returns (raw : list Z) (result : DecodedUplink) :
  exists result', Part000.data_frame raw result = Returned result'.
Proof.
  unfold Part000.data_frame.
  destruct (length raw <? 14)%nat; [eexists; reflexivity|].
  cbv zeta.
  repeat match goal with
         | |- context [JS.is_case ?x ?v] => destruct (JS.is_case x v)
         end; eexists; reflexivity.
Qed.

(** Part_000 throws on the status frames of 13 bytes only. *)
Lemma Part000_decodeUplink_returns (bytes : list Z) :
  (JS.Buffer_from bytes !! 0%nat = Some 0x11 -> length bytes <> 13%nat) ->
  exists result, Part000.decodeUplink bytes = Returned result.
Proof.
  intros H13. unfold Part000.decodeUplink.
  destruct (30 <? length (JS.Buffer_from bytes))%nat;
    [eexists; reflexivity|].
  cbv zeta.
  destruct (JS.Buffer_from bytes !! 0%nat) as [b|] eqn:Hb; simpl;
    [|eexists; reflexivity].
  destruct (Z.eqb_spec b 0x11) as [->|_].
  - specialize (H13 eq_refl).
    destruct (Nat.lt_ge_cases (length (JS.Buffer_from bytes)) 13) as [Hlt|Hge].
    + rewrite status_frame_short by exact Hlt. eexists. reflexivity.
    + rewrite status_frame_ok; [eexists; reflexivity|].
      rewrite Buffer_from_length in *. lia.
  - destruct (b =? 0x01); [apply Part000_data_frame_returns|].
    eexists. reflexivity.
Qed.

(** Without padding the identifier does not tell the bytes apart: two frames
    with different identifier bytes are given the same [device_id]. *)
Lemma device_id_collision :
  exists result result',
    Part000.decodeUplink [0x11; 0x01; 0x23; 4; 5; 1; 0; 0; 0; 60; 1; 0; 3; 65]
    = Returned result /\
    Part000.decodeUplink [0x11; 0x12; 0x03; 4; 5; 1; 0; 0; 0; 60; 1; 0; 3; 65]
    = Returned result' /\
    get "device_id" result = get "device_id" result'.
Proof.
  eexists _, _. split; [vm_compute; reflexivity|].
  split; vm_compute; reflexivity.
Qed.

(** ** The loops of the sample driver end, and its uplink decoder returns *)

Lemma for_each_returns {S : Type} (body : nat -> S -> outcome S) :
  (forall j s, exists s', body j s = Returned s') ->
  forall js s, exists s', JS.for_each body js s = Returned s'.
Proof.
  intros Hbody js. induction js as [|j js IH]; intros s; simpl.
  - eexists. reflexivity.
  - destruct (Hbody j s) as [s' ->]. simpl. apply IH.
Qed.

(** Turns the boolean tests of an unfolded loop body into hypotheses. *)
Ltac loop_cases :=
  repeat match goal with
         | |- context [Nat.ltb ?a ?b] =>
             destruct (Nat.ltb_spec a b)
         | |- context [JS.is_case ?x ?v] =>
             destruct (JS.is_case x v) eqn:?
         end.

Lemma status_loop_returns (raw rawHEX : list Z) (fuel : nat) :
  forall (i : nat) (result : DecodedUplink),
    (i <= length raw + 1)%nat -> (length raw + 2 <= fuel + i)%nat ->
    exists fl,
      SampleDriver.status_loop fuel raw rawHEX i result = Returned fl.
Proof.
  induction fuel as [|fuel IH]; intros i result Hi Hfuel; [lia|].
  cbn [SampleDriver.status_loop]. unfold SampleDriver.error_return.
  loop_cases; try (eexists; reflexivity); try (apply IH; lia).
  all: destruct (for_each_returns
              (fun j result =>
                 Returned
                   (set "name"
                      (VStr (value_str (get "name" result) +:+
                             JS.elem_str (rawHEX !! j))) result))
              ltac:(intros; eexists; reflexivity)
              (JS.range i (length raw)) result) as [r ->].
  all: eexists; reflexivity.
Qed.

(** After [raw[0] = 17] the second loop stops at once: there is nothing to
    read, or the first tag is 17, which is no tag of the data stream. *)
Lemma data_loop_after_assignment (raw : list Z) (result : DecodedUplink) :
  SampleDriver.data_loop (S (length (<[0%nat := 17]> raw)))
    (<[0%nat := 17]> raw) 0 result
  = Returned
      match raw with
      | [] => Fallthrough result
      | _ :: _ =>
          Return
            (delete_data
               (push_error "Invalid uplink payload: unknown id '17'" result))
      end.
Proof. destruct raw as [|b raw]; reflexivity. Qed.

(** The uplink decoder of the sample driver returns a result on every
    input: it does not throw and its loops do not run out of fuel. *)
Lemma SampleDriver_decodeUplink_returns (bytes : list Z) :
  exists result, SampleDriver.decodeUplink bytes = Returned result.
Proof.
  unfold SampleDriver.decodeUplink.
  destruct (30 <? length (JS.Buffer_from bytes))%nat;
    [eexists; reflexivity|].
  cbv zeta. cbn [SampleDriver.truthy Z.eqb negb].
  set (raw := <[0%nat := 17]> (JS.Buffer_from bytes)).
  destruct (status_loop_returns raw
              (JS.Buffer_from_string (JS.Array_toString bytes))
              (S (length raw)) 1
              (set "frame" (VStr "Status frame") fresh)
              ltac:(lia) ltac:(lia)) as [fl ->].
  cbn [mbind outcome_bind]. destruct fl as [result|result];
    [|eexists; reflexivity].
  unfold raw. rewrite data_loop_after_assignment.
  destruct (JS.Buffer_from bytes); eexists; reflexivity.
Qed.

Lemma downlink_loop_returns (raw : list Z) (fuel : nat) :
  forall (i : nat) (result : DecodedDownlink),
    (i <= length raw)%nat -> (length raw < fuel + i)%nat ->
    exists fl, SampleDriver.downlink_loop fuel raw i result = Returned fl.
Proof.
  induction fuel as [|fuel IH]; intros i result Hi Hfuel; [lia|].
  cbn [SampleDriver.downlink_loop]. unfold SampleDriver.error_return.
  loop_cases; try (eexists; reflexivity);
    unfold JS.readUInt8; rewrite (lookup_byte raw (i + 1)) by lia;
    cbn [mbind outcome_bind]; apply IH; lia.
Qed.

(** The downlink decoder returns a result on every input. *)
Lemma decodeDownlink_returns (bytes : list Z) :
  exists result, SampleDriver.decodeDownlink bytes = Returned result.
Proof.
  unfold SampleDriver.decodeDownlink.
  destruct (4 <? length (JS.Buffer_from bytes))%nat;
    [eexists; reflexivity|].
  destruct (downlink_loop_returns (JS.Buffer_from bytes)
              (S (length (JS.Buffer_from bytes))) 0 fresh
              ltac:(lia) ltac:(lia)) as [fl ->].
  destruct fl; eexists; reflexivity.
Qed.

(** The fuel given to the data loop is enough from every position. *)
Lemma data_loop_fuel (raw : list Z) (fuel : nat) :
  forall (i : nat) (result : DecodedUplink),
    (i <= length raw)%nat -> (length raw < fuel + i)%nat ->
    SampleDriver.data_loop fuel raw i result <> NoFuel.
Proof.
  induction fuel as [|fuel IH]; intros i result Hi Hfuel; [lia|].
  cbn [SampleDriver.data_loop]. unfold SampleDriver.error_return.
  loop_cases; try discriminate;
    unfold JS.readInt16BE, JS.readInt8;
    repeat match goal with
           | |- context [raw !! ?k] =>
               let Hk := fresh "Hk" in
               destruct (raw !! k) eqn:Hk;
               [apply lookup_lt_Some in Hk|]
           end;
    cbn [mbind outcome_bind]; try discriminate; apply IH; lia.
Qed.

(** * Further properties of the drivers *)

(** ** Reading fields of a result *)

Lemma get_set_eq {V : Type} (k : string) (v : V) (r : Decoded V) :
  is_Some (data r) -> get k (set k v r) = Some v.
Proof.
  intros [d Hd]. unfold get, set. simpl. rewrite Hd. simpl.
  apply lookup_insert_eq.
Qed.

Lemma get_set_ne {V : Type} (k k' : string) (v : V) (r : Decoded V) :
  k <> k' -> get k (set k' v r) = get k r.
Proof.
  intros Hk. unfold get, set. simpl. destruct (data r) as [d|]; simpl;
    [|reflexivity].
  apply lookup_insert_ne. congruence.
Qed.

Lemma data_set {V : Type} (k : string) (v : V) (r : Decoded V) :
  is_Some (data r) -> is_Some (data (set k v r)).
Proof. intros [d Hd]. unfold set. simpl. rewrite Hd. eexists. reflexivity. Qed.

(** Reads a field through the assignments made after it. *)
Ltac read_field :=
  repeat (rewrite get_set_ne by discriminate);
  rewrite get_set_eq by (repeat apply data_set; eexists; reflexivity);
  try reflexivity.

(** ** Big-endian reads *)

Lemma be32_inside (raw : list Z) (i : nat) :
  (i + 3 < length raw)%nat -> be32 raw i = VNum (u32 raw i).
Proof.
  intros Hi. unfold be32, u32.
  rewrite (lookup_byte raw i), (lookup_byte raw (i + 1)),
    (lookup_byte raw (i + 2)), (lookup_byte raw (i + 3)) by lia.
  reflexivity.
Qed.

Lemma be32_outside (raw : list Z) (i : nat) :
  (length raw <= i + 3)%nat -> be32 raw i = VNaN.
Proof.
  intros Hi. unfold be32. rewrite (lookup_ge_None_2 raw (i + 3)) by lia.
  match goal with |- of_number (JS.add ?x None) = _ => destruct x end;
    reflexivity.
Qed.

Lemma be16_inside (raw : list Z) (i : nat) :
  (i + 1 < length raw)%nat -> be16 raw i = VNum (u16 raw i).
Proof.
  intros Hi. unfold be16, u16.
  rewrite (lookup_byte raw i), (lookup_byte raw (i + 1)) by lia.
  reflexivity.
Qed.

Lemma raw_byte (bytes : list Z) (k : nat) :
  (k < length bytes)%nat -> 0 <= JS.Buffer_from bytes !!! k < 256.
Proof.
  intros Hk. apply (Buffer_from_bounds bytes k), lookup_byte.
  rewrite Buffer_from_length. exact Hk.
Qed.

Lemma u32_bounds (bytes : list Z) (i : nat) :
  (i + 3 < length bytes)%nat -> 0 <= u32 (JS.Buffer_from bytes) i < 2 ^ 32.
Proof.
  intros Hi. unfold u32.
  pose proof (raw_byte bytes i ltac:(lia)).
  pose proof (raw_byte bytes (i + 1) ltac:(lia)).
  pose proof (raw_byte bytes (i + 2) ltac:(lia)).
  pose proof (raw_byte bytes (i + 3) ltac:(lia)).
  change (2 ^ 32) with 4294967296. change (256 ^ 3) with 16777216.
  change (256 ^ 2) with 65536. lia.
Qed.

Lemma u16_bounds (bytes : list Z) (i : nat) :
  (i + 1 < length bytes)%nat -> 0 <= u16 (JS.Buffer_from bytes) i < 2 ^ 16.
Proof.
  intros Hi. unfold u16.
  pose proof (raw_byte bytes i ltac:(lia)).
  pose proof (raw_byte bytes (i + 1) ltac:(lia)).
  change (2 ^ 16) with 65536. lia.
Qed.

(** ** part_000: dispatch on the leading byte *)

Lemma Part000_in_budget (bytes : list Z) :
  (length bytes <= 30)%nat ->
  Part000.decodeUplink bytes
  = let raw := JS.Buffer_from bytes in
    if JS.is_case (raw !! 0%nat) 0x11 then Part000.status_frame raw fresh
    else if JS.is_case (raw !! 0%nat) 0x01 then Part000.data_frame raw fresh
    else Returned
           (push_error "Invalid uplink payload: unknown frame type" fresh).
Proof.
  intros Hlen. unfold Part000.decodeUplink. rewrite Buffer_from_length.
  destruct (Nat.ltb_spec 30 (length bytes)) as [Hgt|_]; [lia|]. reflexivity.
Qed.

Lemma Part000_data (bytes : list Z) :
  JS.Buffer_from bytes !! 0%nat = Some 0x01 -> (length bytes <= 30)%nat ->
  Part000.decodeUplink bytes = Part000.data_frame (JS.Buffer_from bytes) fresh.
Proof.
  intros H0 Hlen. rewrite Part000_in_budget by exact Hlen.
  cbv zeta. rewrite H0. reflexivity.
Qed.

Lemma be32_cases (raw : list Z) (i : nat) :
  be32 raw i
  = if (i + 4 <=? length raw)%nat then VNum (u32 raw i) else VNaN.
Proof.
  destruct (Nat.leb_spec (i + 4) (length raw)) as [Hin|Hout].
  - apply be32_inside. lia.
  - apply be32_outside. lia.
Qed.

(** Evaluates the data frame of part_000 on a buffer of at least 14 bytes
    whose sub-type byte is known by [Hsub]. *)
Ltac data_frame_case bytes raw H0 Hraw Hsub :=
  rewrite Part000_data by (exact H0 || lia);
  unfold Part000.data_frame; fold raw; rewrite Hraw;
  destruct (Nat.ltb_spec (length bytes) 14) as [?|_]; [lia|];
  cbv zeta; cbn [Nat.add]; rewrite Hsub; cbn [JS.is_case Z.eqb Pos.eqb];
  eexists; split; [reflexivity|]; split; [reflexivity|].

(** X1: part_000 throws exactly on the status frames of 13 bytes (leading
    byte 0x11 once reduced to a byte), and then a [TypeError]; on every other
    input it returns a result. *)
Theorem X1_part000_throws_exactly_on_13_byte_status (bytes : list Z) :
  (Part000.decodeUplink bytes = Threw TypeError <->
   JS.Buffer_from bytes !! 0%nat = Some 0x11 /\ length bytes = 13%nat) /\
  ((exists result, Part000.decodeUplink bytes = Returned result) <->
   ~ (JS.Buffer_from bytes !! 0%nat = Some 0x11 /\ length bytes = 13%nat)).
Proof.
  assert (Hthrow :
    JS.Buffer_from bytes !! 0%nat = Some 0x11 /\ length bytes = 13%nat ->
    Part000.decodeUplink bytes = Threw TypeError).
  { intros [H0 Hlen]. rewrite Part000_in_budget by lia. cbv zeta.
    rewrite H0. simpl. apply status_frame_13.
    rewrite Buffer_from_length. exact Hlen. }
  assert (Hret :
    ~ (JS.Buffer_from bytes !! 0%nat = Some 0x11 /\ length bytes = 13%nat) ->
    exists result, Part000.decodeUplink bytes = Returned result).
  { intros Hn. apply Part000_decodeUplink_returns. intros H0 Hlen.
    apply Hn. split; assumption. }
  assert (Hdec :
    (JS.Buffer_from bytes !! 0%nat = Some 0x11 /\ length bytes = 13%nat) \/
    ~ (JS.Buffer_from bytes !! 0%nat = Some 0x11 /\ length bytes = 13%nat)).
  { destruct (decide (JS.Buffer_from bytes !! 0%nat = Some 0x11));
      destruct (decide (length bytes = 13%nat)); tauto. }
  split; split.
  - intros Ht. destruct Hdec as [Hc|Hc]; [exact Hc|].
    destruct (Hret Hc) as [r Hr]. congruence.
  - exact Hthrow.
  - intros [r Hr] Hc. rewrite (Hthrow Hc) in Hr. discriminate.
  - exact Hret.
Qed.

(** X2: in part_000 an uplink of at most 30 bytes whose leading byte is
    neither 0x11 nor 0x01, the empty uplink included, gets the single error
    "unknown frame type"; this is the one error path that keeps the data
    object, which is empty. *)
Theorem X2_part000_unknown_frame_keeps_empty_data (bytes : list Z) :
  (length bytes <= 30)%nat ->
  JS.Buffer_from bytes !! 0%nat <> Some 0x11 ->
  JS.Buffer_from bytes !! 0%nat <> Some 0x01 ->
  Part000.decodeUplink bytes
  = Returned
      (mkDecoded (Some ∅) ["Invalid uplink payload: unknown frame type"] []).
Proof. apply Part000_unknown_frame_type. Qed.

Lemma X2_part000_unknown_frame_keeps_empty_data_witness :
  Part000.decodeUplink []
  = Returned
      (mkDecoded (Some ∅) ["Invalid uplink payload: unknown frame type"] []).
Proof.
  apply (X2_part000_unknown_frame_keeps_empty_data []);
    [simpl; lia | discriminate | discriminate].
Defined.

(** X3: in part_000 a status frame of 1 to 12 bytes is refused with the
    single error "index out of bounds when reading status frame" and no
    data. *)
Theorem X3_part000_status_frame_truncated (bytes : list Z) :
  JS.Buffer_from bytes !! 0%nat = Some 0x11 -> (length bytes < 13)%nat ->
  Part000.decodeUplink bytes
  = Returned
      (mkDecoded None
         ["Invalid uplink payload: index out of bounds when reading status frame"]
         []).
Proof.
  intros H0 Hlen. rewrite Part000_in_budget by lia. cbv zeta.
  rewrite H0. simpl. apply status_frame_short.
  rewrite Buffer_from_length. exact Hlen.
Qed.

Lemma X3_part000_status_frame_truncated_witness :
  Part000.decodeUplink [0x11; 1; 2; 3; 4; 5; 6; 7; 8; 9; 10; 11]
  = Returned
      (mkDecoded None
         ["Invalid uplink payload: index out of bounds when reading status frame"]
         []).
Proof.
  apply (X3_part000_status_frame_truncated
           [0x11; 1; 2; 3; 4; 5; 6; 7; 8; 9; 10; 11]);
    [reflexivity | simpl; lia].
Defined.

(** X4: in part_000 a status frame of 14 to 30 bytes is decoded without
    error into exactly the six fields [frame_type], [device_id], [port],
    [device_date_time], [firmware] and [name]: the port is byte 5, the date
    the unsigned big-endian number of bytes 6 to 9 (below 2^32), the
    firmware bytes 10 to 12 in hexadecimal separated by dots, and the name
    the hexadecimal renderings of bytes 13 and following put end to end. *)
Theorem X4_part000_status_frame_fields (bytes : list Z) :
  let raw := JS.Buffer_from bytes in
  raw !! 0%nat = Some 0x11 -> (14 <= length bytes <= 30)%nat ->
  exists result,
    Part000.decodeUplink bytes = Returned result /\
    errors result = [] /\ warnings result = [] /\
    (dom <$> data result)
    = Some ({[ "frame_type"; "device_id"; "port"; "device_date_time";
               "firmware"; "name" ]} : gset string) /\
    get "frame_type" result = Some (VStr "Status frame") /\
    get "port" result = Some (VNum (raw !!! 5%nat)) /\
    get "device_date_time" result = Some (VNum (u32 raw 6)) /\
    0 <= u32 raw 6 < 2 ^ 32 /\
    get "firmware" result
    = Some (VStr (JS.toString16 (raw !!! 10%nat) +:+ "." +:+
                  JS.toString16 (raw !!! 11%nat) +:+ "." +:+
                  JS.toString16 (raw !!! 12%nat))) /\
    get "name" result
    = Some (VStr (foldl (fun acc b => acc +:+ JS.toString16 b) ""
                    (drop 13 raw))).
Proof.
  intros raw H0 Hlen. eexists. split.
  { rewrite Part000_in_budget by lia. cbv zeta. fold raw. rewrite H0. simpl.
    apply status_frame_ok. unfold raw. rewrite Buffer_from_length. lia. }
  split; [reflexivity|]. split; [reflexivity|]. split.
  { unfold status_fields. simpl. f_equal. }
  unfold get, status_fields. simpl.
  repeat split; try (apply u32_bounds; lia);
    repeat (rewrite lookup_insert_ne by discriminate);
    try apply lookup_insert_eq.
Qed.

Lemma X4_part000_status_frame_fields_witness :
  let bytes := [0x11; 0x12; 0x34; 0x56; 0x78; 2; 0; 0; 1; 0; 1; 10; 3; 65; 66] in
  let raw := JS.Buffer_from bytes in
  exists result,
    Part000.decodeUplink bytes = Returned result /\
    errors result = [] /\ warnings result = [] /\
    (dom <$> data result)
    = Some ({[ "frame_type"; "device_id"; "port"; "device_date_time";
               "firmware"; "name" ]} : gset string) /\
    get "frame_type" result = Some (VStr "Status frame") /\
    get "port" result = Some (VNum (raw !!! 5%nat)) /\
    get "device_date_time" result = Some (VNum (u32 raw 6)) /\
    0 <= u32 raw 6 < 2 ^ 32 /\
    get "firmware" result
    = Some (VStr (JS.toString16 (raw !!! 10%nat) +:+ "." +:+
                  JS.toString16 (raw !!! 11%nat) +:+ "." +:+
                  JS.toString16 (raw !!! 12%nat))) /\
    get "name" result
    = Some (VStr (foldl (fun acc b => acc +:+ JS.toString16 b) ""
                    (drop 13 raw))).
Proof.
  apply (X4_part000_status_frame_fields
           [0x11; 0x12; 0x34; 0x56; 0x78; 2; 0; 0; 1; 0; 1; 10; 3; 65; 66]);
    [reflexivity | simpl; lia].
Defined.

(** ** part_000: data frames *)

(** X5: in part_000 a data frame of 1 to 13 bytes is refused with the single
    error "index out of bounds when reading data frame" and no data. *)
Theorem X5_part000_data_frame_truncated (bytes : list Z) :
  JS.Buffer_from bytes !! 0%nat = Some 0x01 -> (length bytes < 14)%nat ->
  Part000.decodeUplink bytes
  = Returned
      (mkDecoded None
         ["Invalid uplink payload: index out of bounds when reading data frame"]
         []).
Proof.
  intros H0 Hlen. rewrite Part000_data by (exact H0 || lia).
  unfold Part000.data_frame. rewrite Buffer_from_length.
  destruct (Nat.ltb_spec (length bytes) 14) as [_|Hge]; [reflexivity|lia].
Qed.

Lemma X5_part000_data_frame_truncated_witness :
  Part000.decodeUplink [0x01; 10; 0; 0; 1; 0; 80; 0x0a; 3; 0; 0; 0; 1]
  = Returned
      (mkDecoded None
         ["Invalid uplink payload: index out of bounds when reading data frame"]
         []).
Proof.
  apply (X5_part000_data_frame_truncated
           [0x01; 10; 0; 0; 1; 0; 80; 0x0a; 3; 0; 0; 0; 1]);
    [reflexivity | simpl; lia].
Defined.

(** X6: in part_000 a data frame of 14 to 30 bytes whose byte 7 is none of
    0x0a, 0x0b, 0x0c, 0xf7 is refused with the single error "unknown data
    frame type"; the header fields already read are dropped with the data. *)
Theorem X6_part000_unknown_subtype (bytes : list Z) :
  let raw := JS.Buffer_from bytes in
  raw !! 0%nat = Some 0x01 -> (14 <= length bytes <= 30)%nat ->
  ~ In (raw !!! 7%nat) subtypes ->
  Part000.decodeUplink bytes
  = Returned
      (mkDecoded None ["Invalid uplink payload: unknown data frame type"] []).
Proof.
  intros raw H0 Hlen Hsub. rewrite Part000_data by (exact H0 || lia).
  unfold Part000.data_frame. fold raw.
  assert (Hraw : length raw = length bytes) by apply Buffer_from_length.
  rewrite Hraw.
  destruct (Nat.ltb_spec (length bytes) 14) as [?|_]; [lia|].
  cbv zeta. rewrite (lookup_byte raw 7) by lia.
  unfold subtypes in Hsub. simpl in Hsub. cbn [JS.is_case].
  destruct (Z.eqb_spec (raw !!! 7%nat) 0x0a) as [e|_];
    [exfalso; apply Hsub; rewrite e; auto 10|].
  destruct (Z.eqb_spec (raw !!! 7%nat) 0x0b) as [e|_];
    [exfalso; apply Hsub; rewrite e; auto 10|].
  destruct (Z.eqb_spec (raw !!! 7%nat) 0x0c) as [e|_];
    [exfalso; apply Hsub; rewrite e; auto 10|].
  destruct (Z.eqb_spec (raw !!! 7%nat) 0xf7) as [e|_];
    [exfalso; apply Hsub; rewrite e; auto 10|].
  reflexivity.
Qed.

Lemma X6_part000_unknown_subtype_witness :
  Part000.decodeUplink
    [0x01; 10; 0; 0; 1; 0; 80; 5; 3; 0; 0; 0; 1; 4; 0; 0; 0; 42]
  = Returned
      (mkDecoded None ["Invalid uplink payload: unknown data frame type"] []).
Proof.
  apply (X6_part000_unknown_subtype
           [0x01; 10; 0; 0; 1; 0; 80; 5; 3; 0; 0; 0; 1; 4; 0; 0; 0; 42]);
    [reflexivity | simpl; lia |].
  vm_compute. intros H. repeat (destruct H as [H|H]; [discriminate H|]).
  exact H.
Defined.

(** X7: in part_000 a data frame of 14 to 30 bytes with a known sub-type is
    decoded without error; its header fields are the address (bytes 1 to 4 in
    dotted decimal), the port (bytes 5-6, big-endian, below 2^16), the slave
    identifier (byte 7, which is also the sub-type), the function code (byte
    8), the start register (bytes 9-10), the register count (bytes 11-12) and
    the byte count (byte 13). *)
Theorem X7_part000_data_frame_header (bytes : list Z) :
  let raw := JS.Buffer_from bytes in
  raw !! 0%nat = Some 0x01 -> (14 <= length bytes <= 30)%nat ->
  In (raw !!! 7%nat) subtypes ->
  exists result,
    Part000.decodeUplink bytes = Returned result /\
    errors result = [] /\
    get "tcp_ip" result
    = Some (VStr (JS.toString10 (raw !!! 1%nat) +:+ "." +:+
                  JS.toString10 (raw !!! 2%nat) +:+ "." +:+
                  JS.toString10 (raw !!! 3%nat) +:+ "." +:+
                  JS.toString10 (raw !!! 4%nat))) /\
    get "tcp_port" result = Some (VNum (u16 raw 5)) /\
    0 <= u16 raw 5 < 2 ^ 16 /\
    get "slave_id" result = Some (VNum (raw !!! 7%nat)) /\
    get "modbus" result = Some (VNum (raw !!! 8%nat)) /\
    get "start_value" result = Some (VNum (u16 raw 9)) /\
    get "registers_quiered" result = Some (VNum (u16 raw 11)) /\
    get "data_bytes" result = Some (VNum (raw !!! 13%nat)).
Proof.
  intros raw H0 Hlen Hsub.
  assert (H7 : raw !! 7%nat = Some (raw !!! 7%nat)).
  { apply lookup_byte. unfold raw. rewrite Buffer_from_length. lia. }
  assert (Hraw : length raw = length bytes) by apply Buffer_from_length.
  unfold subtypes in Hsub. simpl in Hsub.
  destruct Hsub as [Hs|[Hs|[Hs|[Hs|[]]]]]; rewrite <- Hs in H7;
    data_frame_case bytes raw H0 Hraw H7;
    rewrite !be16_inside by lia;
    rewrite (lookup_byte raw 1), (lookup_byte raw 2), (lookup_byte raw 3),
      (lookup_byte raw 4), (lookup_byte raw 8), (lookup_byte raw 13) by lia;
    rewrite <- Hs;
    repeat split; try (apply u16_bounds; lia); read_field.
Qed.

Lemma X7_part000_data_frame_header_witness :
  let bytes :=
    [0x01; 192; 168; 0; 7; 1; 246; 0x0b; 3; 0; 16; 0; 2; 8;
     0; 0; 1; 0; 0; 0; 0; 9] in
  let raw := JS.Buffer_from bytes in
  exists result,
    Part000.decodeUplink bytes = Returned result /\
    errors result = [] /\
    get "tcp_ip" result
    = Some (VStr (JS.toString10 (raw !!! 1%nat) +:+ "." +:+
                  JS.toString10 (raw !!! 2%nat) +:+ "." +:+
                  JS.toString10 (raw !!! 3%nat) +:+ "." +:+
                  JS.toString10 (raw !!! 4%nat))) /\
    get "tcp_port" result = Some (VNum (u16 raw 5)) /\
    0 <= u16 raw 5 < 2 ^ 16 /\
    get "slave_id" result = Some (VNum (raw !!! 7%nat)) /\
    get "modbus" result = Some (VNum (raw !!! 8%nat)) /\
    get "start_value" result = Some (VNum (u16 raw 9)) /\
    get "registers_quiered" result = Some (VNum (u16 raw 11)) /\
    get "data_bytes" result = Some (VNum (raw !!! 13%nat)).
Proof.
  apply (X7_part000_data_frame_header
           [0x01; 192; 168; 0; 7; 1; 246; 0x0b; 3; 0; 16; 0; 2; 8;
            0; 0; 1; 0; 0; 0; 0; 9]);
    [reflexivity | simpl; lia | vm_compute; tauto].
Defined.

(** Evaluates the counters of a data frame of part_000. *)
Ltac data_frame_counters bytes raw H0 Hraw Hsub :=
  data_frame_case bytes raw H0 Hraw Hsub;
  rewrite !be32_cases, Hraw;
  repeat split; try (intros; apply u32_bounds; lia); read_field.

(** X8: in part_000 a gas-meter data frame (byte 7 = 0x0a) of 14 to 30 bytes
    is decoded without error; [c1] is the unsigned big-endian number of
    bytes 14 to 17 when the frame has them, and [NaN], still without any
    error, when the frame is shorter than 18 bytes. *)
Theorem X8_part000_gas_meter_counter (bytes : list Z) :
  let raw := JS.Buffer_from bytes in
  raw !! 0%nat = Some 0x01 -> (14 <= length bytes <= 30)%nat ->
  raw !! 7%nat = Some 0x0a ->
  exists result,
    Part000.decodeUplink bytes = Returned result /\
    errors result = [] /\
    get "frame_type" result = Some (VStr "Data frame - GAS METER") /\
    get "c1" result
    = Some (if (18 <=? length bytes)%nat then VNum (u32 raw 14) else VNaN) /\
    ((18 <= length bytes)%nat -> 0 <= u32 raw 14 < 2 ^ 32).
Proof.
  intros raw H0 Hlen Hsub.
  assert (Hraw : length raw = length bytes) by apply Buffer_from_length.
  data_frame_counters bytes raw H0 Hraw Hsub.
Qed.

Lemma X8_part000_gas_meter_counter_witness :
  let bytes := [0x01; 10; 0; 0; 1; 0; 80; 0x0a; 3; 0; 0; 0; 1; 4; 0; 0] in
  let raw := JS.Buffer_from bytes in
  exists result,
    Part000.decodeUplink bytes = Returned result /\
    errors result = [] /\
    get "frame_type" result = Some (VStr "Data frame - GAS METER") /\
    get "c1" result
    = Some (if (18 <=? length bytes)%nat then VNum (u32 raw 14) else VNaN) /\
    ((18 <= length bytes)%nat -> 0 <= u32 raw 14 < 2 ^ 32).
Proof.
  apply (X8_part000_gas_meter_counter
           [0x01; 10; 0; 0; 1; 0; 80; 0x0a; 3; 0; 0; 0; 1; 4; 0; 0]);
    [reflexivity | simpl; lia | reflexivity].
Defined.

(** X9: in part_000 a water-meter data frame (byte 7 = 0x0b) of 14 to 30
    bytes is decoded without error; [c1] and [c2] are the unsigned
    big-endian numbers of bytes 14 to 17 and 18 to 21, each [NaN] when the
    frame ends before its last byte. *)
Theorem X9_part000_water_meter_counters (bytes : list Z) :
  let raw := JS.Buffer_from bytes in
  raw !! 0%nat = Some 0x01 -> (14 <= length bytes <= 30)%nat ->
  raw !! 7%nat = Some 0x0b ->
  exists result,
    Part000.decodeUplink bytes = Returned result /\
    errors result = [] /\
    get "frame_type" result = Some (VStr "Data frame - WATER METER") /\
    get "c1" result
    = Some (if (18 <=? length bytes)%nat then VNum (u32 raw 14) else VNaN) /\
    get "c2" result
    = Some (if (22 <=? length bytes)%nat then VNum (u32 raw 18) else VNaN).
Proof.
  intros raw H0 Hlen Hsub.
  assert (Hraw : length raw = length bytes) by apply Buffer_from_length.
  data_frame_counters bytes raw H0 Hraw Hsub.
Qed.

Lemma X9_part000_water_meter_counters_witness :
  let bytes :=
    [0x01; 10; 0; 0; 1; 0; 80; 0x0b; 3; 0; 0; 0; 2; 8;
     0; 0; 1; 0; 0; 0; 0; 9] in
  let raw := JS.Buffer_from bytes in
  exists result,
    Part000.decodeUplink bytes = Returned result /\
    errors result = [] /\
    get "frame_type" result = Some (VStr "Data frame - WATER METER") /\
    get "c1" result
    = Some (if (18 <=? length bytes)%nat then VNum (u32 raw 14) else VNaN) /\
    get "c2" result
    = Some (if (22 <=? length bytes)%nat then VNum (u32 raw 18) else VNaN).
Proof.
  apply (X9_part000_water_meter_counters
           [0x01; 10; 0; 0; 1; 0; 80; 0x0b; 3; 0; 0; 0; 2; 8;
            0; 0; 1; 0; 0; 0; 0; 9]);
    [reflexivity | simpl; lia | reflexivity].
Defined.

(** X10: in part_000 an energy-meter data frame (byte 7 = 0x0c) of 14 to 30
    bytes is decoded without error; [ea] and [er] are the unsigned
    big-endian numbers of bytes 14 to 17 and 18 to 21, each [NaN] when the
    frame ends before its last byte. *)
Theorem X10_part000_energy_meter_counters (bytes : list Z) :
  let raw := JS.Buffer_from bytes in
  raw !! 0%nat = Some 0x01 -> (14 <= length bytes <= 30)%nat ->
  raw !! 7%nat = Some 0x0c ->
  exists result,
    Part000.decodeUplink bytes = Returned result /\
    errors result = [] /\
    get "frame_type" result = Some (VStr "Data frame - ENERGY METER") /\
    get "ea" result
    = Some (if (18 <=? length bytes)%nat then VNum (u32 raw 14) else VNaN) /\
    get "er" result
    = Some (if (22 <=? length bytes)%nat then VNum (u32 raw 18) else VNaN).
Proof.
  intros raw H0 Hlen Hsub.
  assert (Hraw : length raw = length bytes) by apply Buffer_from_length.
  data_frame_counters bytes raw H0 Hraw Hsub.
Qed.

Lemma X10_part000_energy_meter_counters_witness :
  let bytes :=
    [0x01; 10; 0; 0; 1; 0; 80; 0x0c; 3; 0; 0; 0; 2; 8;
     0; 0; 1; 0; 0; 0] in
  let raw := JS.Buffer_from bytes in
  exists result,
    Part000.decodeUplink bytes = Returned result /\
    errors result = [] /\
    get "frame_type" result = Some (VStr "Data frame - ENERGY METER") /\
    get "ea" result
    = Some (if (18 <=? length bytes)%nat then VNum (u32 raw 14) else VNaN) /\
    get "er" result
    = Some (if (22 <=? length bytes)%nat then VNum (u32 raw 18) else VNaN).
Proof.
  apply (X10_part000_energy_meter_counters
           [0x01; 10; 0; 0; 1; 0; 80; 0x0c; 3; 0; 0; 0; 2; 8;
            0; 0; 1; 0; 0; 0]);
    [reflexivity | simpl; lia | reflexivity].
Defined.

(** X11: in part_000 an imported-energy data frame (byte 7 = 0xf7) of 14 to
    30 bytes is decoded without error into four counters read at bytes 14,
    18, 22 and 26; the last one, [es_imp], ends at byte 29, so it is a number
    only for a frame of exactly 30 bytes, the longest accepted, and [NaN]
    for every shorter frame. *)
Theorem X11_part000_imported_energy_counters (bytes : list Z) :
  let raw := JS.Buffer_from bytes in
  raw !! 0%nat = Some 0x01 -> (14 <= length bytes <= 30)%nat ->
  raw !! 7%nat = Some 0xf7 ->
  exists result,
    Part000.decodeUplink bytes = Returned result /\
    errors result = [] /\
    get "frame_type" result = Some (VStr "Data frame - IMPORTED ENERGY") /\
    get "ea_imp" result
    = Some (if (18 <=? length bytes)%nat then VNum (u32 raw 14) else VNaN) /\
    get "er_ind_imp" result
    = Some (if (22 <=? length bytes)%nat then VNum (u32 raw 18) else VNaN) /\
    get "er_cap_imp" result
    = Some (if (26 <=? length bytes)%nat then VNum (u32 raw 22) else VNaN) /\
    get "es_imp" result
    = Some (if (length bytes =? 30)%nat then VNum (u32 raw 26) else VNaN).
Proof.
  intros raw H0 Hlen Hsub.
  assert (Hraw : length raw = length bytes) by apply Buffer_from_length.
  replace (length bytes =? 30)%nat with (30 <=? length bytes)%nat.
  2:{ destruct (Nat.leb_spec 30 (length bytes));
        destruct (Nat.eqb_spec (length bytes) 30); (reflexivity || lia). }
  data_frame_counters bytes raw H0 Hraw Hsub.
Qed.

Lemma X11_part000_imported_energy_counters_witness :
  let bytes :=
    [0x01; 10; 0; 0; 1; 0; 80; 0xf7; 3; 0; 0; 0; 8; 16;
     0; 0; 0; 1; 0; 0; 0; 2; 0; 0; 0; 3; 0; 0; 0; 4] in
  let raw := JS.Buffer_from bytes in
  exists result,
    Part000.decodeUplink bytes = Returned result /\
    errors result = [] /\
    get "frame_type" result = Some (VStr "Data frame - IMPORTED ENERGY") /\
    get "ea_imp" result
    = Some (if (18 <=? length bytes)%nat then VNum (u32 raw 14) else VNaN) /\
    get "er_ind_imp" result
    = Some (if (22 <=? length bytes)%nat then VNum (u32 raw 18) else VNaN) /\
    get "er_cap_imp" result
    = Some (if (26 <=? length bytes)%nat then VNum (u32 raw 22) else VNaN) /\
    get "es_imp" result
    = Some (if (length bytes =? 30)%nat then VNum (u32 raw 26) else VNaN).
Proof.
  apply (X11_part000_imported_energy_counters
           [0x01; 10; 0; 0; 1; 0; 80; 0xf7; 3; 0; 0; 0; 8; 16;
            0; 0; 0; 1; 0; 0; 0; 2; 0; 0; 0; 3; 0; 0; 0; 4]);
    [reflexivity | simpl; lia | reflexivity].
Defined.

(** The length guard, for the proofs below. *)
Lemma length_guard (bytes : list Z) :
  (30 < length bytes)%nat ->
  Part000.decodeUplink bytes = Returned too_long /\
  SampleDriver.decodeUplink bytes = Returned too_long.
Proof.
  intros Hlen.
  assert (Hguard : (30 <? length (JS.Buffer_from bytes))%nat = true).
  { rewrite Buffer_from_length. apply Nat.ltb_lt. exact Hlen. }
  unfold Part000.decodeUplink, SampleDriver.decodeUplink.
  rewrite Hguard. split; reflexivity.
Qed.

(** ** part_000: the shape of every result *)

Lemma exclusive_error {V : Type} (msg : string) (r : Decoded V) :
  warnings r = [] -> errors r = [] ->
  exclusive (delete_data (push_error msg r)).
Proof.
  intros Hw He. split; [exact Hw|]. right. split; [reflexivity|].
  exists msg. simpl. rewrite He. reflexivity.
Qed.

Lemma exclusive_rejected {V : Type} (msg : string) :
  exclusive (@mkDecoded V None [msg] []).
Proof.
  split; [reflexivity|]. right. split; [reflexivity|]. exists msg. reflexivity.
Qed.

Lemma exclusive_data {V : Type} (r : Decoded V) :
  warnings r = [] -> errors r = [] -> is_Some (data r) -> exclusive r.
Proof. intros Hw He Hd. split; [exact Hw|]. left. split; assumption. Qed.

Lemma Part000_data_frame_exclusive (raw : list Z) :
  exists result,
    Part000.data_frame raw fresh = Returned result /\ exclusive result.
Proof.
  unfold Part000.data_frame.
  destruct (length raw <? 14)%nat.
  { eexists. split; [reflexivity|]. apply exclusive_error; reflexivity. }
  cbv zeta.
  repeat match goal with
         | |- context [JS.is_case ?x ?v] => destruct (JS.is_case x v)
         end;
    (eexists; split; [reflexivity|]);
    try (apply exclusive_error; reflexivity);
    (apply exclusive_data;
     [reflexivity | reflexivity | repeat apply data_set; eexists; reflexivity]).
Qed.

(** X12: whatever the input, part_000 ends in one of three ways: it returns
    a result with data and no error or with one error and no data (never a
    warning); or it returns the "unknown frame type" error next to an empty
    data object; or it throws a [TypeError]. *)
Theorem X12_part000_result_shape (bytes : list Z) :
  match Part000.decodeUplink bytes with
  | Returned result =>
      exclusive result \/
      result
      = mkDecoded (Some ∅) ["Invalid uplink payload: unknown frame type"] []
  | Threw e => e = TypeError
  | NoFuel => False
  end.
Proof.
  destruct (Nat.le_gt_cases (length bytes) 30) as [Hlen|Hlen].
  2:{ destruct (length_guard bytes Hlen) as [-> _]. left.
      apply exclusive_rejected. }
  rewrite Part000_in_budget by exact Hlen. cbv zeta.
  destruct (JS.is_case (JS.Buffer_from bytes !! 0%nat) 0x11).
  - destruct (Nat.lt_total (length (JS.Buffer_from bytes)) 13)
      as [Hl|[Hl|Hl]].
    + rewrite status_frame_short by exact Hl. left.
      apply exclusive_rejected.
    + rewrite status_frame_13 by exact Hl. reflexivity.
    + rewrite status_frame_ok by lia. left.
      apply exclusive_data; [reflexivity | reflexivity | eexists; reflexivity].
  - destruct (JS.is_case (JS.Buffer_from bytes !! 0%nat) 0x01).
    + destruct (Part000_data_frame_exclusive (JS.Buffer_from bytes))
        as (r & -> & Hr). left. exact Hr.
    + right. reflexivity.
Qed.

(** ** Sample driver: what the uplink decoder can return *)

Lemma accepted_set {V : Type} (k : string) (v : V) (r : Decoded V) :
  accepted r -> accepted (set k v r).
Proof.
  intros (Hw & He & Hd). repeat split; [exact Hw | exact He |].
  apply data_set. exact Hd.
Qed.

Lemma rejected_error {V : Type} (msg : string) (r : Decoded V) :
  accepted r -> rejected (delete_data (push_error msg r)).
Proof.
  intros (Hw & He & _). split; [exact Hw|]. split; [reflexivity|].
  exists msg. simpl. rewrite He. reflexivity.
Qed.

Lemma is_case_true (x : option Z) (v : Z) :
  JS.is_case x v = true -> x = Some v.
Proof.
  destruct x as [z|]; simpl; [|discriminate].
  intros H. apply Z.eqb_eq in H. congruence.
Qed.

(** The loop of tag 0x04: every step appends to the name, which starts from
    the text of [undefined] when the field was not set. *)
Lemma sample_name_loop (rawHEX : list Z) (js : list nat) :
  forall result : DecodedUplink,
    accepted result -> no_measurement result ->
    get "name" result = None \/ named result ->
    exists r,
      JS.for_each
        (fun j result =>
           Returned
             (set "name"
                (VStr (value_str (get "name" result) +:+
                       JS.elem_str (rawHEX !! j))) result))
        js result = Returned r /\
      accepted r /\ no_measurement r /\
      (get "name" r = None \/ named r) /\ (js <> [] -> named r).
Proof.
  induction js as [|j js IH]; intros result Ha Hm Hn.
  - exists result. repeat split; try assumption; try apply Ha; try apply Hm.
    congruence.
  - cbn [JS.for_each mbind outcome_bind].
    set (r1 := set "name"
                 (VStr (value_str (get "name" result) +:+
                        JS.elem_str (rawHEX !! j))) result).
    assert (Hr1 : named r1).
    { unfold named, r1. rewrite get_set_eq by apply Ha.
      destruct Hn as [->|[s ->]]; eexists; reflexivity. }
    destruct (IH r1) as (r & Hr & Har & Hmr & _ & Hjs).
    + apply accepted_set. exact Ha.
    + unfold no_measurement, r1. rewrite !get_set_ne by discriminate.
      exact Hm.
    + right. exact Hr1.
    + exists r. split; [exact Hr|].
      assert (Hnamed : named r).
      { destruct js as [|j' js']; [|apply Hjs; discriminate].
        simpl in Hr. injection Hr as <-. exact Hr1. }
      repeat split; try apply Har; try apply Hmr; auto.
Qed.

(** What the status loop leaves behind, started on a result without error,
    name or measurement. *)
Lemma status_loop_outcome (raw rawHEX : list Z) (fuel : nat) :
  forall (i : nat) (result : DecodedUplink),
    accepted result -> get "name" result = None -> no_measurement result ->
    (i <= length raw + 1)%nat -> (length raw + 2 <= fuel + i)%nat ->
    exists fl,
      SampleDriver.status_loop fuel raw rawHEX i result = Returned fl /\
      match fl with
      | Fallthrough r =>
          accepted r /\ get "name" r = None /\ no_measurement r
      | Return r =>
          rejected r \/
          (accepted r /\ named r /\ no_measurement r /\
           exists j, (i <= j)%nat /\ raw !! j = Some 0x04)
      end.
Proof.
  induction fuel as [|fuel IH]; intros i result Ha Hn Hm Hi Hfuel; [lia|].
  cbn [SampleDriver.status_loop]. unfold SampleDriver.error_return.
  loop_cases;
    try (eexists; split; [reflexivity|]; left; apply rejected_error;
         exact Ha);
    try (eexists; split; [reflexivity|]; repeat split;
         try apply Ha; try apply Hm; assumption);
    try match goal with
        | |- exists fl,
              SampleDriver.status_loop fuel raw rawHEX ?i' ?r' = _ /\ _ =>
            destruct (IH i' r') as (fl & -> & Hfl);
            [ apply accepted_set; exact Ha
            | rewrite get_set_ne by discriminate; exact Hn
            | unfold no_measurement; rewrite !get_set_ne by discriminate;
              exact Hm
            | lia | lia | ];
            exists fl; split; [reflexivity|];
            destruct fl as [r|r]; [exact Hfl|];
            destruct Hfl as [Hr|(Har & Hnr & Hmr & j & Hj & Hj4)];
            [left; exact Hr|];
            right; repeat split; try apply Har; try apply Hmr;
            try exact Hnr; exists j; split; [lia | exact Hj4]
        end.
  all: destruct (sample_name_loop rawHEX (JS.range i (length raw)) result
                   Ha Hm (or_introl Hn)) as (r & -> & Har & Hmr & _ & Hjs).
  all: eexists; split; [reflexivity|]; right.
  all: repeat split; try apply Har; try apply Hmr.
  all: try (apply Hjs; unfold JS.range;
            destruct (length raw - i)%nat eqn:E; [lia | discriminate]).
  all: exists i; split; [lia | apply is_case_true; assumption].
Qed.

Lemma sample_uplink_outcome (bytes : list Z) :
  exists result,
    SampleDriver.decodeUplink bytes = Returned result /\
    match bytes with
    | [] =>
        result = mkDecoded (Some {[ "frame" := VStr "Status frame" ]}) [] []
    | _ :: _ =>
        rejected result \/
        (accepted result /\ named result /\ no_measurement result /\
         exists j, (1 <= j)%nat /\ JS.Buffer_from bytes !! j = Some 0x04)
    end.
Proof.
  destruct bytes as [|b0 bytes0].
  { eexists. split; vm_compute; reflexivity. }
  set (bytes := b0 :: bytes0).
  destruct (Nat.le_gt_cases (length bytes) 30) as [Hlen|Hlen].
  2:{ destruct (length_guard bytes Hlen) as [_ ->]. eexists.
      split; [reflexivity|]. left. repeat split. eexists. reflexivity. }
  unfold SampleDriver.decodeUplink. rewrite Buffer_from_length.
  destruct (Nat.ltb_spec 30 (length bytes)) as [Hgt|_]; [lia|].
  cbv zeta. cbn [SampleDriver.truthy Z.eqb negb].
  set (raw := <[0%nat := 17]> (JS.Buffer_from bytes)).
  destruct (status_loop_outcome raw
              (JS.Buffer_from_string (JS.Array_toString bytes))
              (S (length raw)) 1
              (set "frame" (VStr "Status frame") fresh))
    as (fl & -> & Hfl);
    [ repeat split; eexists; reflexivity | reflexivity
    | repeat split | lia | lia | ].
  cbn [mbind outcome_bind]. destruct fl as [r|r].
  - unfold raw. rewrite data_loop_after_assignment.
    eexists. split; [reflexivity|]. left.
    apply rejected_error. apply Hfl.
  - eexists. split; [reflexivity|].
    destruct Hfl as [Hr|(Har & Hnr & Hmr & j & Hj & Hj4)];
      [left; exact Hr|].
    right. repeat split; try apply Har; try apply Hmr; try exact Hnr.
    exists j. split; [exact Hj|].
    unfold raw in Hj4. rewrite list_lookup_insert_ne in Hj4 by lia.
    exact Hj4.
Qed.

(** X13: the uplink decoder of the sample driver never throws: on every
    input it returns a result, which carries either data and no error or
    exactly one error and no data, and never a warning. *)
Theorem X13_sample_uplink_returns_exclusive (bytes : list Z) :
  exists result,
    SampleDriver.decodeUplink bytes = Returned result /\ exclusive result.
Proof.
  destruct (sample_uplink_outcome bytes) as (r & Hr & Hshape).
  exists r. split; [exact Hr|].
  destruct bytes as [|b bytes].
  - subst r. apply exclusive_data; [reflexivity | reflexivity |].
    eexists. reflexivity.
  - destruct Hshape as [(Hw & Hd & He)|((Hw & He & Hd) & _)].
    + split; [exact Hw|]. right. split; assumption.
    + apply exclusive_data; assumption.
Qed.

(** X14: in the sample driver the test [raw[0] = 17] makes every uplink a
    status frame.  The empty uplink is accepted with the single field
    [frame].  An uplink that is not empty is accepted only when the status
    loop reaches the name tag: some byte after the first is 0x04, and the
    decoded name starts with the text "undefined"; in every other case it is
    rejected. *)
Theorem X14_sample_uplink_accepts_only_names (bytes : list Z) :
  exists result,
    SampleDriver.decodeUplink bytes = Returned result /\
    (bytes = [] ->
     result = mkDecoded (Some {[ "frame" := VStr "Status frame" ]}) [] []) /\
    (bytes <> [] -> errors result = [] ->
     named result /\
     exists j, (1 <= j)%nat /\ JS.Buffer_from bytes !! j = Some 0x04).
Proof.
  destruct (sample_uplink_outcome bytes) as (r & Hr & Hshape).
  exists r. split; [exact Hr|].
  destruct bytes as [|b bytes].
  - split; [intros _; exact Hshape | intros H; contradiction].
  - split; [discriminate|]. intros _ He.
    destruct Hshape as [(_ & _ & msg & Hmsg)|(_ & Hn & _ & Hj)].
    + rewrite Hmsg in He. discriminate.
    + split; assumption.
Qed.

(** X15: the sample driver never decodes a measurement: whatever the
    uplink, the result has no [temperature], no [humidity] and no
    [pulseCounter]; the loop that reads them only ever meets the byte 17. *)
Theorem X15_sample_uplink_never_measures (bytes : list Z) :
  exists result,
    SampleDriver.decodeUplink bytes = Returned result /\
    no_measurement result.
Proof.
  destruct (sample_uplink_outcome bytes) as (r & Hr & Hshape).
  exists r. split; [exact Hr|].
  destruct bytes as [|b bytes].
  - subst r. repeat split.
  - destruct Hshape as [(_ & Hd & _)|(_ & _ & Hm & _)]; [|exact Hm].
    unfold no_measurement, get. rewrite Hd. repeat split.
Qed.

(** ** Sample driver: the downlink encoder *)

(** The three ways the encoder ends, by the threshold. *)
Lemma encodeDownlink_cases (data : gmap string dvalue) :
  SampleDriver.encodeDownlink data
  = match data !! "pulseCounterThreshold" with
    | Some t =>
        if SampleDriver.ToNumber t >? 255 then
          Returned
            (Encoded.mk None None
               ["Invalid downlink: pulseCounterThreshold cannot exceed 255"]
               [])
        else if SampleDriver.ToNumber t <? 0 then Threw RangeError
        else Returned (Encoded.mk (Some (field_bytes data)) (Some 16) [] [])
    | None => Returned (Encoded.mk (Some (field_bytes data)) (Some 16) [] [])
    end.
Proof.
  unfold SampleDriver.encodeDownlink, field_bytes.
  destruct (data !! "pulseCounterThreshold") as [t|].
  - destruct (Z.gtb_spec (SampleDriver.ToNumber t) 255) as [Hgt|Hle];
      [reflexivity|].
    destruct (Z.ltb_spec (SampleDriver.ToNumber t) 0) as [Hlt|Hge].
    + simpl. unfold JS.writeUInt8.
      destruct (Z.gtb_spec (SampleDriver.ToNumber t) 255); [lia|].
      destruct (Z.ltb_spec (SampleDriver.ToNumber t) 0); [|lia].
      reflexivity.
    + rewrite (writeUInt8_byte _ 0 0) by (simpl; lia). simpl.
      rewrite (writeUInt8_byte _ (SampleDriver.ToNumber t) 1)
        by (simpl; lia).
      simpl. destruct (data !! "alarm") as [[n|[|]]|]; reflexivity.
  - simpl. destruct (data !! "alarm") as [[n|[|]]|]; reflexivity.
Qed.

(** X16: a threshold above 255 makes the encoder return the error "cannot
    exceed 255" alone, without [bytes] and without [fPort], whatever the
    other fields are; the alarm is not even looked at. *)
Theorem X16_encodeDownlink_threshold_too_large
    (data : gmap string dvalue) (t : dvalue) :
  data !! "pulseCounterThreshold" = Some t ->
  255 < SampleDriver.ToNumber t ->
  SampleDriver.encodeDownlink data
  = Returned
      (Encoded.mk None None
         ["Invalid downlink: pulseCounterThreshold cannot exceed 255"] []).
Proof.
  intros Ht Hgt. rewrite encodeDownlink_cases, Ht.
  destruct (Z.gtb_spec (SampleDriver.ToNumber t) 255); [reflexivity|lia].
Qed.

Lemma X16_encodeDownlink_threshold_too_large_witness :
  SampleDriver.encodeDownlink
    (<[ "alarm" := DBool true ]> {[ "pulseCounterThreshold" := DNum 256 ]})
  = Returned
      (Encoded.mk None None
         ["Invalid downlink: pulseCounterThreshold cannot exceed 255"] []).
Proof.
  apply (X16_encodeDownlink_threshold_too_large
           (<[ "alarm" := DBool true ]>
              {[ "pulseCounterThreshold" := DNum 256 ]}) (DNum 256));
    [reflexivity | simpl; lia].
Defined.

(** X17: the encoder throws exactly when a threshold is given and is below
    zero; the exception is the [RangeError] of the byte write.  No value of
    the alarm and no other field makes it throw. *)
Theorem X17_encodeDownlink_throws_iff_negative (data : gmap string dvalue) :
  (exists e, SampleDriver.encodeDownlink data = Threw e) <->
  (exists t, data !! "pulseCounterThreshold" = Some t /\
             SampleDriver.ToNumber t < 0).
Proof.
  rewrite encodeDownlink_cases.
  destruct (data !! "pulseCounterThreshold") as [t|].
  - destruct (Z.gtb_spec (SampleDriver.ToNumber t) 255) as [Hgt|Hle].
    + split; [intros [e He]; discriminate|].
      intros (t' & [= <-] & Hneg). lia.
    + destruct (Z.ltb_spec (SampleDriver.ToNumber t) 0) as [Hlt|Hge].
      * split; [intros _; exists t; split; [reflexivity|exact Hlt]|].
        intros _. exists RangeError. reflexivity.
      * split; [intros [e He]; discriminate|].
        intros (t' & [= <-] & Hneg). lia.
  - split; [intros [e He]; discriminate|].
    intros (t' & Ht & _). discriminate.
Qed.

(** X18: the encoder reads two fields only: adding, replacing or removing
    any other field of the input leaves its result unchanged. *)
Theorem X18_encodeDownlink_ignores_other_fields
    (data : gmap string dvalue) (k : string) (v : dvalue) :
  k <> "pulseCounterThreshold" -> k <> "alarm" ->
  SampleDriver.encodeDownlink (<[ k := v ]> data)
  = SampleDriver.encodeDownlink data /\
  SampleDriver.encodeDownlink (delete k data)
  = SampleDriver.encodeDownlink data.
Proof.
  intros Hk1 Hk2. rewrite !encodeDownlink_cases. unfold field_bytes.
  rewrite !lookup_insert_ne, !lookup_delete_ne by congruence.
  split; reflexivity.
Qed.

Lemma X18_encodeDownlink_ignores_other_fields_witness :
  SampleDriver.encodeDownlink
    (<[ "period" := DNum 60 ]> {[ "alarm" := DBool true ]})
  = SampleDriver.encodeDownlink {[ "alarm" := DBool true ]} /\
  SampleDriver.encodeDownlink (delete "period" {[ "alarm" := DBool true ]})
  = SampleDriver.encodeDownlink {[ "alarm" := DBool true ]}.
Proof.
  apply (X18_encodeDownlink_ignores_other_fields
           {[ "alarm" := DBool true ]} "period" (DNum 60)); discriminate.
Defined.

Lemma field_bytes_shape (data : gmap string dvalue) :
  (forall t, data !! "pulseCounterThreshold" = Some t ->
             0 <= SampleDriver.ToNumber t <= 255) ->
  (length (field_bytes data) <= 4)%nat /\
  Nat.Even (length (field_bytes data)) /\
  Forall (fun b => 0 <= b <= 255) (field_bytes data).
Proof.
  intros Ht. unfold field_bytes.
  destruct (data !! "pulseCounterThreshold") as [t|];
    [specialize (Ht t eq_refl)|clear Ht];
    destruct (data !! "alarm") as [[n|[|]]|]; simpl;
    (split; [lia|]);
    (split; [first [exists 0%nat; reflexivity | exists 1%nat; reflexivity
                   | exists 2%nat; reflexivity]|]);
    repeat constructor; lia.
Qed.

(** X19: when the encoder returns bytes, they are the pair (0x00,
    threshold) if a threshold is given, followed by the pair (0x01, alarm)
    if an alarm is given, and nothing else: an even number of at most 4
    bytes, each in [0, 255], sent on port 16 without errors.  With neither
    field the bytes are empty. *)
Theorem X19_encodeDownlink_layout
    (data : gmap string dvalue) (result : Encoded.t) (bytes : list Z) :
  SampleDriver.encodeDownlink data = Returned result ->
  Encoded.bytes result = Some bytes ->
  bytes = field_bytes data /\
  Encoded.fPort result = Some 16 /\ Encoded.errors result = [] /\
  Encoded.warnings result = [] /\
  (length bytes <= 4)%nat /\ Nat.Even (length bytes) /\
  Forall (fun b => 0 <= b <= 255) bytes /\
  (data !! "pulseCounterThreshold" = None -> data !! "alarm" = None ->
   bytes = []).
Proof.
  intros Henc Hbytes. rewrite encodeDownlink_cases in Henc.
  assert (Hok :
    (forall t, data !! "pulseCounterThreshold" = Some t ->
               0 <= SampleDriver.ToNumber t <= 255) /\
    result = Encoded.mk (Some (field_bytes data)) (Some 16) [] []).
  { destruct (data !! "pulseCounterThreshold") as [t|].
    - destruct (Z.gtb_spec (SampleDriver.ToNumber t) 255) as [Hgt|Hle].
      { injection Henc as <-. discriminate Hbytes. }
      destruct (Z.ltb_spec (SampleDriver.ToNumber t) 0) as [Hlt|Hge];
        [discriminate Henc|].
      injection Henc as <-. split; [|reflexivity].
      intros t' [= <-]. lia.
    - injection Henc as <-. split; [discriminate|reflexivity]. }
  destruct Hok as [Hrange ->]. simpl in Hbytes. injection Hbytes as <-.
  destruct (field_bytes_shape data Hrange) as (Hl & He & Hf).
  repeat split; try assumption.
  intros Ht Ha. unfold field_bytes. rewrite Ht, Ha. reflexivity.
Qed.

Lemma X19_encodeDownlink_layout_witness :
  let data : gmap string dvalue :=
    <[ "alarm" := DBool false ]> {[ "pulseCounterThreshold" := DNum 255 ]} in
  let bytes := [0x00; 255; 0x01; 0] in
  let result := Encoded.mk (Some bytes) (Some 16) [] [] in
  bytes = field_bytes data /\
  Encoded.fPort result = Some 16 /\ Encoded.errors result = [] /\
  Encoded.warnings result = [] /\
  (length bytes <= 4)%nat /\ Nat.Even (length bytes) /\
  Forall (fun b => 0 <= b <= 255) bytes /\
  (data !! "pulseCounterThreshold" = None -> data !! "alarm" = None ->
   bytes = []).
Proof.
  apply (X19_encodeDownlink_layout
           (<[ "alarm" := DBool false ]>
              {[ "pulseCounterThreshold" := DNum 255 ]})
           (Encoded.mk (Some [0x00; 255; 0x01; 0]) (Some 16) [] [])
           [0x00; 255; 0x01; 0]);
    reflexivity.
Defined.

(** X20: the alarm byte is 1 for the boolean [true] only.  Any other alarm
    value, the number 1 included, is encoded as 0, so that decoding the
    bytes gives [alarm: false] and not the value that was encoded. *)
Theorem X20_encodeDownlink_alarm_only_true (a : dvalue) :
  a <> DBool true ->
  SampleDriver.encodeDownlink {[ "alarm" := a ]}
  = Returned (Encoded.mk (Some [0x01; 0]) (Some 16) [] []) /\
  SampleDriver.decodeDownlink [0x01; 0]
  = Returned (mkDecoded (Some {[ "alarm" := DBool false ]}) [] []).
Proof.
  intros Ha. split; [|vm_compute; reflexivity].
  rewrite encodeDownlink_cases. unfold field_bytes.
  rewrite lookup_singleton_ne by discriminate.
  rewrite lookup_singleton_eq.
  destruct a as [n|[|]]; [reflexivity | contradiction | reflexivity].
Qed.

Lemma X20_encodeDownlink_alarm_only_true_witness :
  SampleDriver.encodeDownlink {[ "alarm" := DNum 1 ]}
  = Returned (Encoded.mk (Some [0x01; 0]) (Some 16) [] []) /\
  SampleDriver.decodeDownlink [0x01; 0]
  = Returned (mkDecoded (Some {[ "alarm" := DBool false ]}) [] []).
Proof.
  apply (X20_encodeDownlink_alarm_only_true (DNum 1)). discriminate.
Defined.

(** ** Sample driver: the downlink decoder *)

Lemma supported_empty : supported ∅.
Proof. intros k v H. rewrite lookup_empty in H. discriminate. Qed.

Lemma supported_threshold_insert (d : gmap string dvalue) (v : Z) :
  supported d -> 0 <= v <= 255 ->
  supported (<[ "pulseCounterThreshold" := DNum v ]> d).
Proof.
  intros Hd Hv k x. rewrite lookup_insert. case_decide as Hk.
  - intros [= <-]. left. split; [congruence|]. exists v. split; [reflexivity|lia].
  - apply Hd.
Qed.

Lemma supported_alarm_insert (d : gmap string dvalue) (b : bool) :
  supported d -> supported (<[ "alarm" := DBool b ]> d).
Proof.
  intros Hd k x. rewrite lookup_insert. case_decide as Hk.
  - intros [= <-]. right. split; [congruence|]. exists b. reflexivity.
  - apply Hd.
Qed.

(** What the loop of the downlink decoder leaves behind, started at an even
    distance from the start on a result without error. *)
Lemma downlink_loop_outcome (bytes : list Z) (fuel : nat) :
  let raw := JS.Buffer_from bytes in
  forall (i : nat) (result : DecodedDownlink),
    accepted result -> (forall d, data result = Some d -> supported d) ->
    (i <= length raw)%nat -> (length raw < fuel + i)%nat ->
    exists fl,
      SampleDriver.downlink_loop fuel raw i result = Returned fl /\
      match fl with
      | Fallthrough r =>
          accepted r /\ (forall d, data r = Some d -> supported d) /\
          Nat.Even (length raw - i)
      | Return r => rejected r
      end.
Proof.
  intros raw. induction fuel as [|fuel IH];
    intros i result Ha Hs Hi Hfuel; [lia|].
  cbn [SampleDriver.downlink_loop]. unfold SampleDriver.error_return.
  loop_cases;
    try (eexists; split; [reflexivity|]; apply rejected_error; exact Ha);
    try (eexists; split; [reflexivity|]; split; [exact Ha|];
         split; [exact Hs|]; exists 0%nat; lia).
  all: unfold JS.readUInt8; rewrite (lookup_byte raw (i + 1)) by lia;
    cbn [mbind outcome_bind].
  all: assert (Hv : 0 <= raw !!! (i + 1)%nat < 256)
         by (apply (Buffer_from_bounds bytes (i + 1)), lookup_byte; lia).
  all: match goal with
       | |- exists fl,
             SampleDriver.downlink_loop _ _ ?i' ?r' = _ /\ _ =>
           destruct (IH i' r') as (fl & -> & Hfl);
           [ apply accepted_set; exact Ha
           | | lia | lia | ]
       end.
  all: try (exists fl; split; [reflexivity|]; destruct fl as [r|r];
            [|exact Hfl]; destruct Hfl as (Har & Hsr & m & Hm);
            split; [exact Har|]; split; [exact Hsr|];
            exists (S m); lia).
  all: intros d Hd; unfold set in Hd; simpl in Hd;
    destruct (data result) as [d0|] eqn:Hd0; [|discriminate Hd];
    simpl in Hd; injection Hd as <-.
  - apply supported_threshold_insert; [apply Hs; reflexivity | lia].
  - apply supported_alarm_insert. apply Hs. reflexivity.
Qed.

Lemma decodeDownlink_outcome (bytes : list Z) :
  exists result,
    SampleDriver.decodeDownlink bytes = Returned result /\
    (rejected result \/
     (accepted result /\ (forall d, data result = Some d -> supported d) /\
      Nat.Even (length bytes) /\ (length bytes <= 4)%nat)).
Proof.
  unfold SampleDriver.decodeDownlink.
  destruct (Nat.ltb_spec 4 (length (JS.Buffer_from bytes))) as [Hgt|Hle].
  { eexists. split; [reflexivity|]. left.
    apply rejected_error. repeat split. eexists. reflexivity. }
  cbv zeta.
  destruct (downlink_loop_outcome bytes
              (S (length (JS.Buffer_from bytes))) 0 fresh)
    as (fl & -> & Hfl);
    [ repeat split; eexists; reflexivity
    | intros d [= <-]; apply supported_empty | lia | lia | ].
  cbn [mbind outcome_bind]. rewrite Buffer_from_length in *.
  destruct fl as [r|r]; eexists; (split; [reflexivity|]).
  - right. destruct Hfl as (Ha & Hs & He).
    rewrite Nat.sub_0_r in He. repeat split; try apply Ha; assumption.
  - left. exact Hfl.
Qed.

Lemma decodeDownlink_field_bytes (m : gmap string dvalue) :
  supported m ->
  SampleDriver.decodeDownlink (field_bytes m)
  = Returned (mkDecoded (Some m) [] []).
Proof.
  intros Hm.
  pose proof (fun t => supported_threshold m t Hm) as Ht.
  pose proof (fun a => supported_alarm m a Hm) as Ha.
  pose proof (supported_other m) as Ho.
  assert (Hfill : forall (d : gmap string dvalue),
            (forall k, d !! k = m !! k) ->
            Returned (mkDecoded (Some d) [] [])
            = Returned (mkDecoded (Some m) [] [])).
  { intros d Hd. do 3 f_equal. apply map_eq. exact Hd. }
  unfold field_bytes.
  destruct (m !! "pulseCounterThreshold") as [t|] eqn:Et;
    destruct (m !! "alarm") as [a|] eqn:Ea;
    try (destruct (Ht t eq_refl) as (z & -> & Hz));
    try (destruct (Ha a eq_refl) as (b & ->));
    try replace (match DBool b with
                 | DBool true => [0x01; 1]
                 | _ => [0x01; 0]
                 end)
      with [0x01; if b then 1 else 0] by (destruct b; reflexivity);
    simpl app.
  - rewrite decodeDownlink_both by exact Hz. apply Hfill. intros k.
    rewrite lookup_insert. case_decide as H1; [subst k; congruence|].
    rewrite lookup_singleton. case_decide as H2; [subst k; congruence|].
    symmetry. apply Ho; [exact Hm | congruence | congruence].
  - rewrite decodeDownlink_threshold by exact Hz. apply Hfill. intros k.
    rewrite lookup_singleton. case_decide as H2; [subst k; congruence|].
    destruct (decide (k = "alarm")) as [->|H1]; [congruence|].
    symmetry. apply Ho; [exact Hm | congruence | congruence].
  - rewrite decodeDownlink_alarm. apply Hfill. intros k.
    rewrite lookup_singleton. case_decide as H1; [subst k; congruence|].
    destruct (decide (k = "pulseCounterThreshold")) as [->|H2];
      [congruence|].
    symmetry. apply Ho; [exact Hm | congruence | congruence].
  - replace (SampleDriver.decodeDownlink [])
      with (Returned (mkDecoded (Some (∅ : gmap string dvalue)) [] []))
      by (vm_compute; reflexivity).
    apply Hfill. intros k. rewrite lookup_empty.
    destruct (decide (k = "pulseCounterThreshold")) as [->|H2];
      [congruence|].
    destruct (decide (k = "alarm")) as [->|H1]; [congruence|].
    symmetry. apply Ho; [exact Hm | congruence | congruence].
Qed.

(** X21: a downlink of more than 4 bytes is refused by the decoder with the
    single error "length exceeds 4 bytes" and no data, whatever the bytes. *)
Theorem X21_decodeDownlink_too_long (bytes : list Z) :
  (4 < length bytes)%nat ->
  SampleDriver.decodeDownlink bytes
  = Returned
      (mkDecoded None ["Invalid downlink payload: length exceeds 4 bytes"] []).
Proof.
  intros Hlen. unfold SampleDriver.decodeDownlink.
  rewrite Buffer_from_length.
  destruct (Nat.ltb_spec 4 (length bytes)) as [_|Hle]; [reflexivity|lia].
Qed.

Lemma X21_decodeDownlink_too_long_witness :
  SampleDriver.decodeDownlink [0x00; 1; 0x01; 1; 0x00]
  = Returned
      (mkDecoded None ["Invalid downlink payload: length exceeds 4 bytes"] []).
Proof.
  apply (X21_decodeDownlink_too_long [0x00; 1; 0x01; 1; 0x00]).
  simpl. lia.
Defined.

(** X22: the downlink decoder never throws: on every input it returns a
    result that carries either data and no error or exactly one error and
    no data, and never a warning. *)
Theorem X22_decodeDownlink_returns_exclusive (bytes : list Z) :
  exists result,
    SampleDriver.decodeDownlink bytes = Returned result /\ exclusive result.
Proof.
  destruct (decodeDownlink_outcome bytes) as (r & Hr & Hshape).
  exists r. split; [exact Hr|].
  destruct Hshape as [(Hw & Hd & He)|((Hw & He & Hd) & _)].
  - split; [exact Hw|]. right. split; assumption.
  - apply exclusive_data; assumption.
Qed.

(** X23: a downlink with an odd number of bytes is always rejected by the
    decoder: the last tag has no value (or the payload is too long), so the
    result is one error and no data, even when the pairs before it were
    well formed. *)
Theorem X23_decodeDownlink_odd_length_rejected (bytes : list Z) :
  Nat.Odd (length bytes) ->
  exists result,
    SampleDriver.decodeDownlink bytes = Returned result /\ rejected result.
Proof.
  intros Hodd. destruct (decodeDownlink_outcome bytes) as (r & Hr & Hshape).
  exists r. split; [exact Hr|].
  destruct Hshape as [Hrej|(_ & _ & Heven & _)]; [exact Hrej|].
  exfalso. apply (Nat.Even_Odd_False (length bytes)); assumption.
Qed.

Lemma X23_decodeDownlink_odd_length_rejected_witness :
  exists result,
    SampleDriver.decodeDownlink [0x00; 10; 0x01] = Returned result /\
    rejected result.
Proof.
  apply (X23_decodeDownlink_odd_length_rejected [0x00; 10; 0x01]).
  exists 1%nat. reflexivity.
Defined.

(** X24: whatever the decoder accepts can be sent again: the decoded
    mapping only holds a threshold in [0, 255] and a boolean alarm, the
    encoder turns it into bytes without error, and decoding those bytes
    gives the same result.  The bytes themselves may differ from the ones
    first decoded. *)
Theorem X24_decodeDownlink_result_reencodes
    (bytes : list Z) (result : DecodedDownlink) :
  SampleDriver.decodeDownlink bytes = Returned result ->
  errors result = [] ->
  exists m,
    data result = Some m /\ supported m /\
    SampleDriver.encodeDownlink m
    = Returned (Encoded.mk (Some (field_bytes m)) (Some 16) [] []) /\
    SampleDriver.decodeDownlink (field_bytes m) = Returned result.
Proof.
  intros Hdec Herr.
  destruct (decodeDownlink_outcome bytes) as (r & Hr & Hshape).
  rewrite Hdec in Hr. injection Hr as <-.
  destruct Hshape as [(_ & _ & msg & Hmsg)|((Hw & _ & m & Hm) & Hs & _)].
  { rewrite Hmsg in Herr. discriminate. }
  exists m. split; [exact Hm|]. specialize (Hs m Hm).
  split; [exact Hs|]. split; [apply encodeDownlink_supported; exact Hs|].
  rewrite decodeDownlink_field_bytes by exact Hs.
  destruct result as [d e w]. simpl in *. subst. reflexivity.
Qed.

Lemma X24_decodeDownlink_result_reencodes_witness :
  let result : DecodedDownlink :=
    mkDecoded
      (Some (<[ "alarm" := DBool false ]>
               {[ "pulseCounterThreshold" := DNum 9 ]})) [] [] in
  exists m,
    data result = Some m /\ supported m /\
    SampleDriver.encodeDownlink m
    = Returned (Encoded.mk (Some (field_bytes m)) (Some 16) [] []) /\
    SampleDriver.decodeDownlink (field_bytes m) = Returned result.
Proof.
  apply (X24_decodeDownlink_result_reencodes [0x01; 7; 0x00; 9]
           (mkDecoded
              (Some (<[ "alarm" := DBool false ]>
                       {[ "pulseCounterThreshold" := DNum 9 ]})) [] []));
    vm_compute; reflexivity.
Defined.

(** X25: a downlink of at most 4 bytes whose first byte is neither 0x00 nor
    0x01 is refused with the single error "unknown id" that quotes the byte
    in decimal, and no data. *)
Theorem X25_decodeDownlink_unknown_first_tag (bytes : list Z) (t : Z) :
  (length bytes <= 4)%nat ->
  JS.Buffer_from bytes !! 0%nat = Some t -> t <> 0x00 -> t <> 0x01 ->
  SampleDriver.decodeDownlink bytes
  = Returned
      (mkDecoded None
         ["Invalid downlink payload: unknown id '" +:+ JS.toString10 t +:+ "'"]
         []).
Proof.
  intros Hlen Ht H0 H1. unfold SampleDriver.decodeDownlink.
  assert (Hpos : (0 < length (JS.Buffer_from bytes))%nat)
    by (apply lookup_lt_Some in Ht; exact Ht).
  destruct (Nat.ltb_spec 4 (length (JS.Buffer_from bytes))) as [Hgt|_];
    [rewrite Buffer_from_length in Hgt; lia|].
  cbv zeta. cbn [SampleDriver.downlink_loop].
  destruct (Nat.ltb_spec 0 (length (JS.Buffer_from bytes))) as [_|Hge];
    [|lia].
  rewrite Ht. cbn [JS.is_case].
  destruct (Z.eqb_spec t 0x00) as [?|_]; [contradiction|].
  destruct (Z.eqb_spec t 0x01) as [?|_]; [contradiction|].
  reflexivity.
Qed.

Lemma X25_decodeDownlink_unknown_first_tag_witness :
  SampleDriver.decodeDownlink [0x02; 5]
  = Returned
      (mkDecoded None
         ["Invalid downlink payload: unknown id '" +:+ JS.toString10 2 +:+ "'"]
         []).
Proof.
  apply (X25_decodeDownlink_unknown_first_tag [0x02; 5] 2);
    [simpl; lia | reflexivity | discriminate | discriminate].
Defined.

(** X26: when a downlink repeats a tag, the decoder keeps the value of the
    last pair: the bytes [t, a, t, b] are decoded like [t, b]. *)
Theorem X26_decodeDownlink_last_pair_wins (t a b : Z) :
  SampleDriver.decodeDownlink [t; a; t; b]
  = SampleDriver.decodeDownlink [t; b].
Proof.
  unfold SampleDriver.decodeDownlink, JS.Buffer_from.
  cbn [fmap list_fmap length Nat.ltb Nat.leb SampleDriver.downlink_loop
       lookup list_lookup Nat.add JS.is_case JS.readUInt8 mbind outcome_bind].
  destruct (t mod 256 =? 0); [|destruct (t mod 256 =? 1)];
    cbn [mbind outcome_bind]; reflexivity.
Qed.
